(** * autostep_ros: the command and tracking node (nodes/autostep_node.py)

    A shallow embedding of [AutostepNode]: the command handlers, the service
    dispatch, the trajectory set-up and the tracking-sample callback, together
    with the properties of the node that the specification states.

    Conventions of the embedding.
    - Python floats are IEEE binary64 numbers: Rocq's primitive [float].
    - A decoded JSON argument bag is a [gmap string json]; JSON numbers are
      taken as binary64 values (what [scipy.array] and [interp1d] turn them
      into; exact for integers below 2^53).
    - A handler is a function from the node's state to an outcome (a value or
      a raised exception), a new state and the list of events it emitted, in
      program order: lock acquire/release, reads and writes of instance
      attributes, calls into the [Autostep] driver, published messages and
      started threads.  One run of a handler is sequential; what a lock
      protects is read off the emitted events.
    - The [Autostep] driver, [rospy]'s clock and [scipy] are not part of the
      repository.  The driver and the clock are an interface ([External]) that
      answers every call; [scipy]'s array operations and [interp1d] are
      modelled below. *)

From Stdlib Require Import Floats ZArith Uint63.
From stdpp Require Import gmap strings list.

Set Warnings "-register-all".

(** ** Values *)

Inductive json :=
| JNull
| JBool (b : bool)
| JNum (x : float)
| JStr (s : string)
| JArr (l : list json)
| JObj (l : list (string * json)).

Inductive exn :=
| KeyError (k : string)
| IndexError
| ValueError
| TypeError.

Inductive outcome (A : Type) :=
| Ret (a : A)
| Raise (e : exn).
Arguments Ret {A} a.
Arguments Raise {A} e.

(** [rospy.Time], [std_msgs.msg.Header] and the two messages of the node. *)
Record Time := { secs : Z; nsecs : Z }.

Record Header := { seq : Z; stamp : Time; frame_id : string }.

Record MotionData := {
  header : Header;
  elapsed_time : float;
  position : float;
  setpoint : float;
  sensor : float }.

Record TrackingData := { msg_position : float; msg_velocity : float }.

(** ** scipy: arrays and interp1d *)

(** Modelled from the spec: [scipy.array] on a decoded JSON value.  A flat
    list of numbers becomes a one-dimensional float array; for anything else
    the array arithmetic that follows is rejected by numpy. *)
Fixpoint json_numbers (l : list json) : option (list float) :=
  match l with
  | [] => Some []
  | JNum x :: l' =>
      match json_numbers l' with
      | Some xs => Some (x :: xs)
      | None => None
      end
  | _ :: _ => None
  end.

Definition scipy_array (v : json) : outcome (list float) :=
  match v with
  | JArr l =>
      match json_numbers l with
      | Some xs => Ret xs
      | None => Raise TypeError
      end
  | _ => Raise TypeError
  end.

(** [a[1:] - a[:-1]], element by element. *)
Fixpoint first_differences (a : list float) : list float :=
  match a with
  | [] => []
  | x :: rest =>
      match rest with
      | [] => []
      | y :: _ => (y - x)%float :: first_differences rest
      end
  end.

(** [dt * scipy.arange(0, n)]: the integers [0 .. n-1], each converted to a
    float and multiplied by [dt]. *)
Definition float_of_nat (i : nat) : float :=
  PrimFloat.of_uint63 (Uint63.of_Z (Z.of_nat i)).

Definition scaled_arange (dt : float) (n : nat) : list float :=
  map (fun i => (dt * float_of_nat i)%float) (List.seq 0 n).

(** [a[-1]]: the last element, [IndexError] on an empty array. *)
Definition last_element (a : list float) : outcome float :=
  match last a with
  | Some x => Ret x
  | None => Raise IndexError
  end.

(** Modelled from the spec: [scipy.interpolate.interp1d(x, y, kind='linear')],
    the piecewise-linear interpolant through the points [(x_i, y_i)].  The
    constructor wants at least two points.  The time axis handed to it by the
    node is [dt * i] for the driver's positive sample period, already
    increasing, so the constructor's sort of the abscissae changes nothing. *)
Record interp1d := { interp_x : list float; interp_y : list float }.

Definition interp1d_new (x y : list float) : outcome interp1d :=
  if (length x <? 2)%nat then Raise ValueError
  else Ret {| interp_x := x; interp_y := y |}.

(** [searchsorted(x, v)]: the number of leading samples strictly below [v]. *)
Fixpoint searchsorted (x : list float) (v : float) : nat :=
  match x with
  | [] => O
  | xi :: rest => if (xi <? v)%float then S (searchsorted rest v) else O
  end.

Definition clip (lo hi i : nat) : nat := Nat.min hi (Nat.max lo i).

(** Evaluation.  Outside [[x_0, x_last]] the interpolant raises [ValueError]
    (bounds_error); inside, the value on the segment [lo, hi] around [x_new]
    is [slope * (x_new - x_lo) + y_lo]. *)
Definition interp1d_call (f : interp1d) (x_new : float) : outcome float :=
  let x := interp_x f in
  let y := interp_y f in
  if (x_new <? nth 0 x 0)%float then Raise ValueError
  else if (nth (length x - 1) x 0 <? x_new)%float then Raise ValueError
  else
    let hi := clip 1 (length x - 1) (searchsorted x x_new) in
    let lo := (hi - 1)%nat in
    let x_lo := nth lo x 0%float in
    let x_hi := nth hi x 0%float in
    let y_lo := nth lo y 0%float in
    let y_hi := nth hi y 0%float in
    let slope := ((y_hi - y_lo) / (x_hi - x_lo))%float in
    Ret (slope * (x_new - x_lo) + y_lo)%float.

(** ** The driver *)

(** Calls into [self.autostep], with their arguments. *)
Module Autostep.

Inductive call :=
| run (velocity : json)
| enable
| release
| move_to (position : json)
| soft_stop
| is_busy
| get_position
| set_position (position : json)
| set_move_mode_max
| set_move_mode_jog
| set_move_mode_to_max
| set_move_mode_to_jog
| get_params
| print_params
| run_with_feedback (velocity : float).

End Autostep.

Import Autostep.

Abbreviation autostep_call := Autostep.call.

(** The collaborators outside the repository, as an interface over their own
    state [E]: the driver's calls (those that return nothing, and one method
    for each that returns a value), [rospy.get_time()] and
    [rospy.Time.now()]. *)
Class External (E : Type) := {
  autostep_do : autostep_call -> E -> E;
  autostep_get_position : E -> float * E;
  autostep_run_with_feedback : float -> E -> float * E;
  autostep_is_busy : E -> bool * E;
  autostep_get_params : E -> json * E;
  rospy_get_time : E -> float * E;
  rospy_Time_now : E -> Time * E }.

(** A simulated collaborator for concrete runs: a clock that advances by one
    second per reading and a motor that reports the position it holds and
    moves by the commanded velocity. *)
Record sim := { sim_time : float; sim_position : float }.

#[global] Instance sim_external : External sim := {
  autostep_do := fun _ e => e;
  autostep_get_position := fun e => (sim_position e, e);
  autostep_run_with_feedback := fun v e =>
    ((sim_position e + v)%float,
     {| sim_time := sim_time e; sim_position := (sim_position e + v)%float |});
  autostep_is_busy := fun e => (false, e);
  autostep_get_params := fun e => (JObj [], e);
  rospy_get_time := fun e =>
    (sim_time e,
     {| sim_time := (sim_time e + 1)%float; sim_position := sim_position e |});
  rospy_Time_now := fun e => ({| secs := 0; nsecs := 0 |}, e) }.

(** ** The node's attributes *)

Record node_state := {
  tracking_mode_gain : float;
  tracking_mode_is_first : bool;
  tracking_mode_first_update_t : float;
  tracking_mode_last_update_t : float;
  tracking_mode_position : float;
  tracking_mode_velocity : float;
  tracking_mode_position_start : float;
  have_sensor : bool;
  enabled_flag : bool;
  tracking_mode_enabled : bool;
  running_motion_cmd : bool }.

Inductive field :=
| F_tracking_mode_gain
| F_tracking_mode_is_first
| F_tracking_mode_first_update_t
| F_tracking_mode_last_update_t
| F_tracking_mode_position
| F_tracking_mode_velocity
| F_tracking_mode_position_start
| F_have_sensor
| F_enabled_flag
| F_tracking_mode_enabled
| F_running_motion_cmd.

#[global] Instance field_eq_dec : EqDecision field.
Proof. solve_decision. Defined.

(** An attribute of [self]: its name, how it is read and how it is written. *)
Record attr (A : Type) := {
  attr_field : field;
  attr_get : node_state -> A;
  attr_set : A -> node_state -> node_state }.
Arguments attr_field {A} a.
Arguments attr_get {A} a.
Arguments attr_set {A} a.

Definition self_tracking_mode_gain : attr float := {|
  attr_field := F_tracking_mode_gain;
  attr_get := tracking_mode_gain;
  attr_set := fun v n =>
    {| tracking_mode_gain := v;
       tracking_mode_is_first := tracking_mode_is_first n;
       tracking_mode_first_update_t := tracking_mode_first_update_t n;
       tracking_mode_last_update_t := tracking_mode_last_update_t n;
       tracking_mode_position := tracking_mode_position n;
       tracking_mode_velocity := tracking_mode_velocity n;
       tracking_mode_position_start := tracking_mode_position_start n;
       have_sensor := have_sensor n;
       enabled_flag := enabled_flag n;
       tracking_mode_enabled := tracking_mode_enabled n;
       running_motion_cmd := running_motion_cmd n |} |}.

Definition self_tracking_mode_is_first : attr bool := {|
  attr_field := F_tracking_mode_is_first;
  attr_get := tracking_mode_is_first;
  attr_set := fun v n =>
    {| tracking_mode_gain := tracking_mode_gain n;
       tracking_mode_is_first := v;
       tracking_mode_first_update_t := tracking_mode_first_update_t n;
       tracking_mode_last_update_t := tracking_mode_last_update_t n;
       tracking_mode_position := tracking_mode_position n;
       tracking_mode_velocity := tracking_mode_velocity n;
       tracking_mode_position_start := tracking_mode_position_start n;
       have_sensor := have_sensor n;
       enabled_flag := enabled_flag n;
       tracking_mode_enabled := tracking_mode_enabled n;
       running_motion_cmd := running_motion_cmd n |} |}.

Definition self_tracking_mode_first_update_t : attr float := {|
  attr_field := F_tracking_mode_first_update_t;
  attr_get := tracking_mode_first_update_t;
  attr_set := fun v n =>
    {| tracking_mode_gain := tracking_mode_gain n;
       tracking_mode_is_first := tracking_mode_is_first n;
       tracking_mode_first_update_t := v;
       tracking_mode_last_update_t := tracking_mode_last_update_t n;
       tracking_mode_position := tracking_mode_position n;
       tracking_mode_velocity := tracking_mode_velocity n;
       tracking_mode_position_start := tracking_mode_position_start n;
       have_sensor := have_sensor n;
       enabled_flag := enabled_flag n;
       tracking_mode_enabled := tracking_mode_enabled n;
       running_motion_cmd := running_motion_cmd n |} |}.

Definition self_tracking_mode_last_update_t : attr float := {|
  attr_field := F_tracking_mode_last_update_t;
  attr_get := tracking_mode_last_update_t;
  attr_set := fun v n =>
    {| tracking_mode_gain := tracking_mode_gain n;
       tracking_mode_is_first := tracking_mode_is_first n;
       tracking_mode_first_update_t := tracking_mode_first_update_t n;
       tracking_mode_last_update_t := v;
       tracking_mode_position := tracking_mode_position n;
       tracking_mode_velocity := tracking_mode_velocity n;
       tracking_mode_position_start := tracking_mode_position_start n;
       have_sensor := have_sensor n;
       enabled_flag := enabled_flag n;
       tracking_mode_enabled := tracking_mode_enabled n;
       running_motion_cmd := running_motion_cmd n |} |}.

Definition self_tracking_mode_position : attr float := {|
  attr_field := F_tracking_mode_position;
  attr_get := tracking_mode_position;
  attr_set := fun v n =>
    {| tracking_mode_gain := tracking_mode_gain n;
       tracking_mode_is_first := tracking_mode_is_first n;
       tracking_mode_first_update_t := tracking_mode_first_update_t n;
       tracking_mode_last_update_t := tracking_mode_last_update_t n;
       tracking_mode_position := v;
       tracking_mode_velocity := tracking_mode_velocity n;
       tracking_mode_position_start := tracking_mode_position_start n;
       have_sensor := have_sensor n;
       enabled_flag := enabled_flag n;
       tracking_mode_enabled := tracking_mode_enabled n;
       running_motion_cmd := running_motion_cmd n |} |}.

Definition self_tracking_mode_velocity : attr float := {|
  attr_field := F_tracking_mode_velocity;
  attr_get := tracking_mode_velocity;
  attr_set := fun v n =>
    {| tracking_mode_gain := tracking_mode_gain n;
       tracking_mode_is_first := tracking_mode_is_first n;
       tracking_mode_first_update_t := tracking_mode_first_update_t n;
       tracking_mode_last_update_t := tracking_mode_last_update_t n;
       tracking_mode_position := tracking_mode_position n;
       tracking_mode_velocity := v;
       tracking_mode_position_start := tracking_mode_position_start n;
       have_sensor := have_sensor n;
       enabled_flag := enabled_flag n;
       tracking_mode_enabled := tracking_mode_enabled n;
       running_motion_cmd := running_motion_cmd n |} |}.

Definition self_tracking_mode_position_start : attr float := {|
  attr_field := F_tracking_mode_position_start;
  attr_get := tracking_mode_position_start;
  attr_set := fun v n =>
    {| tracking_mode_gain := tracking_mode_gain n;
       tracking_mode_is_first := tracking_mode_is_first n;
       tracking_mode_first_update_t := tracking_mode_first_update_t n;
       tracking_mode_last_update_t := tracking_mode_last_update_t n;
       tracking_mode_position := tracking_mode_position n;
       tracking_mode_velocity := tracking_mode_velocity n;
       tracking_mode_position_start := v;
       have_sensor := have_sensor n;
       enabled_flag := enabled_flag n;
       tracking_mode_enabled := tracking_mode_enabled n;
       running_motion_cmd := running_motion_cmd n |} |}.

Definition self_have_sensor : attr bool := {|
  attr_field := F_have_sensor;
  attr_get := have_sensor;
  attr_set := fun v n =>
    {| tracking_mode_gain := tracking_mode_gain n;
       tracking_mode_is_first := tracking_mode_is_first n;
       tracking_mode_first_update_t := tracking_mode_first_update_t n;
       tracking_mode_last_update_t := tracking_mode_last_update_t n;
       tracking_mode_position := tracking_mode_position n;
       tracking_mode_velocity := tracking_mode_velocity n;
       tracking_mode_position_start := tracking_mode_position_start n;
       have_sensor := v;
       enabled_flag := enabled_flag n;
       tracking_mode_enabled := tracking_mode_enabled n;
       running_motion_cmd := running_motion_cmd n |} |}.

Definition self_enabled_flag : attr bool := {|
  attr_field := F_enabled_flag;
  attr_get := enabled_flag;
  attr_set := fun v n =>
    {| tracking_mode_gain := tracking_mode_gain n;
       tracking_mode_is_first := tracking_mode_is_first n;
       tracking_mode_first_update_t := tracking_mode_first_update_t n;
       tracking_mode_last_update_t := tracking_mode_last_update_t n;
       tracking_mode_position := tracking_mode_position n;
       tracking_mode_velocity := tracking_mode_velocity n;
       tracking_mode_position_start := tracking_mode_position_start n;
       have_sensor := have_sensor n;
       enabled_flag := v;
       tracking_mode_enabled := tracking_mode_enabled n;
       running_motion_cmd := running_motion_cmd n |} |}.

Definition self_tracking_mode_enabled : attr bool := {|
  attr_field := F_tracking_mode_enabled;
  attr_get := tracking_mode_enabled;
  attr_set := fun v n =>
    {| tracking_mode_gain := tracking_mode_gain n;
       tracking_mode_is_first := tracking_mode_is_first n;
       tracking_mode_first_update_t := tracking_mode_first_update_t n;
       tracking_mode_last_update_t := tracking_mode_last_update_t n;
       tracking_mode_position := tracking_mode_position n;
       tracking_mode_velocity := tracking_mode_velocity n;
       tracking_mode_position_start := tracking_mode_position_start n;
       have_sensor := have_sensor n;
       enabled_flag := enabled_flag n;
       tracking_mode_enabled := v;
       running_motion_cmd := running_motion_cmd n |} |}.

Definition self_running_motion_cmd : attr bool := {|
  attr_field := F_running_motion_cmd;
  attr_get := running_motion_cmd;
  attr_set := fun v n =>
    {| tracking_mode_gain := tracking_mode_gain n;
       tracking_mode_is_first := tracking_mode_is_first n;
       tracking_mode_first_update_t := tracking_mode_first_update_t n;
       tracking_mode_last_update_t := tracking_mode_last_update_t n;
       tracking_mode_position := tracking_mode_position n;
       tracking_mode_velocity := tracking_mode_velocity n;
       tracking_mode_position_start := tracking_mode_position_start n;
       have_sensor := have_sensor n;
       enabled_flag := enabled_flag n;
       tracking_mode_enabled := tracking_mode_enabled n;
       running_motion_cmd := v |} |}.

(** ** Threads and callbacks *)

(** The closures the handlers define and hand to the motion threads. *)
Inductive callback :=
| sinusoid_motion_data_callback
| sinusoid_motion_done_callback
| trajectory_motion_data_callback
| trajectory_motion_done_callback.

(** A started thread: its target and [thread_args], in the order of the
    source's list. *)
Inductive thread :=
| Thread_sinusoid
    (param : gmap string json) (on_data on_done : callback)
| Thread_run_trajectory
    (t_done : float) (position_func velocity_func : interp1d)
    (disp : bool) (on_data : callback).

(** ** Events, state and the handler monad *)

Inductive event :=
| EvAcquire
| EvRelease
| EvRead (f : field)
| EvWrite (f : field)
| EvAutostep (c : autostep_call)
| EvPublish (m : MotionData)
| EvThreadStart (t : thread).

Record state (E : Type) := State { node : node_state; ext : E }.
Arguments State {E} node ext.
Arguments node {E} s.
Arguments ext {E} s.

Record result (E A : Type) := Result {
  res_out : outcome A;
  res_state : state E;
  res_trace : list event }.
Arguments Result {E A} res_out res_state res_trace.
Arguments res_out {E A} r.
Arguments res_state {E A} r.
Arguments res_trace {E A} r.

Definition M (E A : Type) : Type := state E -> result E A.

Definition ret {E A} (a : A) : M E A := fun s => Result (Ret a) s [].

Definition raise {E A} (e : exn) : M E A := fun s => Result (Raise e) s [].

Definition bind {E A B} (c : M E A) (k : A -> M E B) : M E B := fun s =>
  let r := c s in
  match res_out r with
  | Ret a =>
      let r' := k a (res_state r) in
      Result (res_out r') (res_state r') (res_trace r ++ res_trace r')
  | Raise e => Result (Raise e) (res_state r) (res_trace r)
  end.

Notation "x <- c ;; k" := (bind c (fun x => k))
  (at level 100, c at next level, right associativity).
Notation "c ;;; k" := (bind c (fun _ => k))
  (at level 100, right associativity).

Definition lift {E A} (o : outcome A) : M E A := fun s => Result o s [].

Definition emit {E} (ev : event) : M E unit := fun s => Result (Ret tt) s [ev].

(** [self.a] read and [self.a = v]. *)
Definition rd {E A} (a : attr A) : M E A := fun s =>
  Result (Ret (attr_get a (node s))) s [EvRead (attr_field a)].

Definition wr {E A} (a : attr A) (v : A) : M E unit := fun s =>
  Result (Ret tt) (State (attr_set a v (node s)) (ext s))
         [EvWrite (attr_field a)].

(** [with self.lock: body]; the lock is released however the body ends. *)
Definition with_lock {E A} (body : M E A) : M E A := fun s =>
  let r := body s in
  Result (res_out r) (res_state r) (EvAcquire :: res_trace r ++ [EvRelease]).

(** Calls into the collaborators. *)
Definition autostep {E} `{External E} (c : autostep_call) : M E unit := fun s =>
  Result (Ret tt) (State (node s) (autostep_do c (ext s))) [EvAutostep c].

Definition autostep_value {E A} `{External E}
    (c : autostep_call) (f : E -> A * E) : M E A := fun s =>
  Result (Ret (fst (f (ext s)))) (State (node s) (snd (f (ext s))))
         [EvAutostep c].

Definition clock {E A} (f : E -> A * E) : M E A := fun s =>
  Result (Ret (fst (f (ext s)))) (State (node s) (snd (f (ext s)))) [].

Definition publish {E} (m : MotionData) : M E unit := emit (EvPublish m).

Definition thread_start {E} (t : thread) : M E unit := emit (EvThreadStart t).

(** ** Responses *)

(** [resp_dict]: the dictionary a handler returns. *)
Definition response (success : bool) (message : string) : gmap string json :=
  <["message" := JStr message]> (<["success" := JBool success]> ∅).

Definition new_header (now : Time) : Header :=
  {| seq := 0; stamp := now; frame_id := "" |}.

(** ** The node *)

(** The attributes after [__init__] (which ends [initialize()] with
    [have_sensor = False] and [enable()] with [enabled_flag = True]). *)
Definition init_node : node_state := {|
  tracking_mode_gain := 5%float;
  tracking_mode_is_first := false;
  tracking_mode_first_update_t := 0%float;
  tracking_mode_last_update_t := 0%float;
  tracking_mode_position := 0%float;
  tracking_mode_velocity := 0%float;
  tracking_mode_position_start := 0%float;
  have_sensor := false;
  enabled_flag := true;
  tracking_mode_enabled := false;
  running_motion_cmd := false |}.

(** The loop of [on_sinusoid_command] over [param_keys]: [ok], [param] and
    [resp_dict['message']] after the keys have been visited. *)
Definition param_keys : list string :=
  ["amplitude"; "period"; "phase"; "offset"; "num_cycle"].

Fixpoint collect_param (keys : list string) (args_dict : gmap string json)
    (ok : bool) (param : gmap string json) (message : string)
    : bool * gmap string json * string :=
  match keys with
  | [] => (ok, param, message)
  | key :: keys' =>
      match args_dict !! key with
      | Some v => collect_param keys' args_dict ok (<[key := v]> param) message
      | None =>
          let message :=
            if (0 <? String.length message)%nat then message +:+ ", "
            else message in
          collect_param keys' args_dict false param
                        (message +:+ key +:+ " argument missing")
      end
  end.

(** [velocity = zeros(position.shape); velocity[1:] = (position[1:] -
    position[:-1])/dt]. *)
Definition zeros (n : nat) : list float := repeat 0%float n.

Definition trajectory_velocity (dt : float) (position : list float)
    : list float :=
  take 1 (zeros (length position))
  ++ map (fun d => (d / dt)%float) (first_differences position).

Section Node.

Context {E : Type} `{External E}.

(** [Autostep.TrajectoryDt], a constant of the driver's class. *)
Variable TrajectoryDt : float.

Definition handler : Type := gmap string json -> M E (gmap string json).

Definition enable : M E unit :=
  autostep Autostep.enable ;;;
  wr self_enabled_flag true.

Definition release : M E unit :=
  autostep Autostep.release ;;;
  wr self_enabled_flag false.

Definition on_run_command : handler := fun args_dict =>
  match args_dict !! "velocity" with
  | Some velocity =>
      autostep (run velocity) ;;;
      ret (response true "")
  | None => ret (response false "velocity argument missing")
  end.

Definition on_enable_command : handler := fun args_dict =>
  enable ;;;
  ret (response true "").

Definition on_release_command : handler := fun args_dict =>
  release ;;;
  ret (response true "").

Definition on_move_to_command : handler := fun args_dict =>
  match args_dict !! "position" with
  | Some position =>
      autostep (move_to position) ;;;
      ret (response true "")
  | None => ret (response false "position argument missing")
  end.

Definition on_soft_stop_command : handler := fun args_dict =>
  autostep soft_stop ;;;
  ret (response true "").

Definition on_is_busy_command : handler := fun args_dict =>
  busy <- autostep_value is_busy autostep_is_busy ;;
  ret (<["is_busy" := JBool busy]> (response true "")).

Definition on_get_position_command : handler := fun args_dict =>
  position <- autostep_value get_position autostep_get_position ;;
  ret (<["position" := JNum position]> (response true "")).

Definition on_set_position_command : handler := fun args_dict =>
  match args_dict !! "position" with
  | Some position =>
      autostep (set_position position) ;;;
      ret (response true "")
  | None => ret (response false "position argument missing")
  end.

(** The two closures of [on_sinusoid_command]. *)
Definition motion_data_callback_sinusoid
    (elapsed_time position setpoint sensor : float) : M E unit :=
  have <- rd self_have_sensor ;;
  let sensor := if negb have then 0%float else sensor in
  now <- clock rospy_Time_now ;;
  publish {| header := new_header now; elapsed_time := elapsed_time;
             position := position; setpoint := setpoint; sensor := sensor |}.

Definition motion_done_callback : M E unit :=
  with_lock (wr self_running_motion_cmd false).

Definition on_sinusoid_command : handler := fun args_dict =>
  let '(ok, param, message) :=
    collect_param param_keys args_dict true ∅ "" in
  if ok then
    with_lock (wr self_running_motion_cmd true) ;;;
    thread_start (Thread_sinusoid param sinusoid_motion_data_callback
                                  sinusoid_motion_done_callback) ;;;
    ret (<["success" := JBool true]> {["message" := JStr message]})
  else
    ret (<["success" := JBool false]> {["message" := JStr message]}).

Definition json_is_str (v : json) (s : string) : bool :=
  match v with
  | JStr s' => String.eqb s' s
  | _ => false
  end.

(** [ok] is initialised to [False] and the handler never assigns it. *)
Definition on_set_move_mode_command : handler := fun args_dict =>
  let ok := false in
  let '(mode, resp_dict) :=
    match args_dict !! "mode" with
    | Some mode => (mode, response true "")
    | None => (JStr "", response false "mode argument missing")
    end in
  if ok then
    if json_is_str mode "max" then
      autostep set_move_mode_max ;;;
      ret resp_dict
    else if json_is_str mode "jog" then
      autostep set_move_mode_jog ;;;
      ret resp_dict
    else
      ret (<["message" := JStr "mode must be 'max' or 'jog'"]>
             (<["success" := JBool false]> resp_dict))
  else ret resp_dict.

Definition on_print_params_command : handler := fun args_dict =>
  autostep print_params ;;;
  ret (response true "").

Definition on_get_params_command : handler := fun args_dict =>
  params <- autostep_value get_params autostep_get_params ;;
  ret (<["params" := params]> (response true "")).

(** The two closures of [on_run_trajectory_command]; the second one is
    defined by the handler and appears nowhere else in it. *)
Definition motion_data_callback_trajectory
    (elapsed_time position setpoint : float) : M E unit :=
  now <- clock rospy_Time_now ;;
  publish {| header := new_header now; elapsed_time := elapsed_time;
             position := position; setpoint := setpoint; sensor := 0 |}.

Definition on_run_trajectory_command : handler := fun args_dict =>
  match args_dict !! "position" with
  | None => ret (response false "position (array) argument missing")
  | Some position =>
      position <- lift (scipy_array position) ;;
      let dt := TrajectoryDt in
      let velocity := trajectory_velocity dt position in
      let t := scaled_arange dt (length position) in
      t_done <- lift (last_element t) ;;
      position_func <- lift (interp1d_new t position) ;;
      velocity_func <- lift (interp1d_new t velocity) ;;
      with_lock (wr self_running_motion_cmd true) ;;;
      thread_start (Thread_run_trajectory t_done position_func velocity_func
                                          false
                                          trajectory_motion_data_callback) ;;;
      ret (response true "")
  end.

Definition on_enable_tracking_mode_command : handler := fun args_dict =>
  with_lock (
    autostep (run (JNum 0)) ;;;
    autostep set_move_mode_to_max ;;;
    wr self_tracking_mode_enabled true ;;;
    wr self_tracking_mode_is_first true) ;;;
  ret (response true "").

Definition on_disable_tracking_mode_command : handler := fun args_dict =>
  with_lock (
    wr self_tracking_mode_enabled false ;;;
    autostep set_move_mode_to_jog ;;;
    autostep (run (JNum 0))) ;;;
  ret (response true "").

Definition on_tracking_data_callback (msg : TrackingData) : M E unit :=
  tracking_mode_enabled_local <- with_lock (rd self_tracking_mode_enabled) ;;
  enabled <- rd self_tracking_mode_enabled ;;
  if enabled then
    is_first <- rd self_tracking_mode_is_first ;;
    predicted_position <-
      (if is_first then
         wr self_tracking_mode_is_first false ;;;
         now <- clock rospy_get_time ;;
         wr self_tracking_mode_first_update_t now ;;;
         first <- rd self_tracking_mode_first_update_t ;;
         wr self_tracking_mode_last_update_t first ;;;
         start <- autostep_value get_position autostep_get_position ;;
         wr self_tracking_mode_position_start start ;;;
         start <- rd self_tracking_mode_position_start ;;
         wr self_tracking_mode_position start ;;;
         predicted_position <- rd self_tracking_mode_position ;;
         wr self_tracking_mode_velocity 0%float ;;;
         ret predicted_position
       else
         current_time <- clock rospy_get_time ;;
         last <- rd self_tracking_mode_last_update_t ;;
         let update_dt := (current_time - last)%float in
         pos <- rd self_tracking_mode_position ;;
         vel <- rd self_tracking_mode_velocity ;;
         let predicted_position := (pos + update_dt * vel)%float in
         start <- rd self_tracking_mode_position_start ;;
         let position_error :=
           (msg_position msg - (predicted_position - start))%float in
         gain <- rd self_tracking_mode_gain ;;
         let new_velocity :=
           (gain * position_error + msg_velocity msg)%float in
         true_position <-
           autostep_value (run_with_feedback new_velocity)
                          (autostep_run_with_feedback new_velocity) ;;
         wr self_tracking_mode_position true_position ;;;
         wr self_tracking_mode_velocity new_velocity ;;;
         wr self_tracking_mode_last_update_t current_time ;;;
         ret predicted_position) ;;
    now <- clock rospy_Time_now ;;
    last <- rd self_tracking_mode_last_update_t ;;
    first <- rd self_tracking_mode_first_update_t ;;
    let elapsed := (last - first)%float in
    pos <- rd self_tracking_mode_position ;;
    publish {| header := new_header now; elapsed_time := elapsed;
               position := pos; setpoint := predicted_position;
               sensor := 0 |}
  else ret tt.

(** [self.command_srv_table] and the service callback.  The request's
    [args_json] is taken decoded; the handler's dictionary stands for the
    [CommandResponse] built from it. *)
Definition command_srv_table : list (string * handler) := [
  ("run", on_run_command);
  ("enable", on_enable_command);
  ("release", on_release_command);
  ("is_busy", on_is_busy_command);
  ("move_to", on_move_to_command);
  ("soft_stop", on_soft_stop_command);
  ("set_position", on_set_position_command);
  ("get_position", on_get_position_command);
  ("set_move_mode", on_set_move_mode_command);
  ("get_params", on_get_params_command);
  ("print_params", on_print_params_command);
  ("sinusoid", on_sinusoid_command);
  ("run_trajectory", on_run_trajectory_command);
  ("enable_tracking_mode", on_enable_tracking_mode_command);
  ("disable_tracking_mode", on_disable_tracking_mode_command) ].

Fixpoint table_get (table : list (string * handler)) (command : string)
    : option handler :=
  match table with
  | [] => None
  | (name, h) :: table' =>
      if String.eqb name command then Some h else table_get table' command
  end.

Definition command_srv_callback (command : string)
    (args_dict : gmap string json) : M E (gmap string json) :=
  match table_get command_srv_table command with
  | Some command_method => command_method args_dict
  | None => ret (response false "unknown command")
  end.

(** Modelled from the spec: the end of a motion thread.  [Autostep.sinusoid]
    and [Autostep.run_trajectory] are the driver's; when the profile ends they
    call the completion callback they were handed, if they were handed one. *)
Definition thread_on_done (t : thread) : option callback :=
  match t with
  | Thread_sinusoid _ _ on_done => Some on_done
  | Thread_run_trajectory _ _ _ _ _ => None
  end.

Definition call_done (c : callback) : M E unit :=
  match c with
  | sinusoid_motion_done_callback => motion_done_callback
  | trajectory_motion_done_callback => motion_done_callback
  | sinusoid_motion_data_callback => raise TypeError
  | trajectory_motion_data_callback => raise TypeError
  end.

Definition thread_finish (t : thread) : M E unit :=
  match thread_on_done t with
  | Some on_done => call_done on_done
  | None => ret tt
  end.

(** What can happen to the node: a service request, a tracking sample, a
    callback made by a motion thread, or the driver and the clock moving on
    by themselves. *)
Inductive node_step : state E -> state E -> Prop :=
| step_command command args_dict s :
    node_step s (res_state (command_srv_callback command args_dict s))
| step_tracking_data msg s :
    node_step s (res_state (on_tracking_data_callback msg s))
| step_sinusoid_data elapsed_time position setpoint sensor s :
    node_step s
      (res_state
         (motion_data_callback_sinusoid elapsed_time position setpoint sensor s))
| step_trajectory_data elapsed_time position setpoint s :
    node_step s
      (res_state
         (motion_data_callback_trajectory elapsed_time position setpoint s))
| step_motion_done s :
    node_step s (res_state (motion_done_callback s))
| step_external s e :
    node_step s (State (node s) e).

Inductive reachable : state E -> Prop :=
| reachable_init e : reachable (State init_node e)
| reachable_step s s' : reachable s -> node_step s s' -> reachable s'.

End Node.

Arguments handler E : clear implicits.

(** ** Reading a trace *)

Definition autostep_calls (tr : list event) : list autostep_call :=
  omap (fun ev => match ev with EvAutostep c => Some c | _ => None end) tr.

Definition published (tr : list event) : list MotionData :=
  omap (fun ev => match ev with EvPublish m => Some m | _ => None end) tr.

Definition threads_started (tr : list event) : list thread :=
  omap (fun ev => match ev with EvThreadStart t => Some t | _ => None end) tr.

(** The events that happen while the state lock is held, and those that
    happen while it is not ([held] tells how the trace starts). *)
Fixpoint under_lock (held : bool) (tr : list event) : list event :=
  match tr with
  | [] => []
  | EvAcquire :: tr' => under_lock true tr'
  | EvRelease :: tr' => under_lock false tr'
  | ev :: tr' => if held then ev :: under_lock held tr' else under_lock held tr'
  end.

Fixpoint outside_lock (held : bool) (tr : list event) : list event :=
  match tr with
  | [] => []
  | EvAcquire :: tr' => outside_lock true tr'
  | EvRelease :: tr' => outside_lock false tr'
  | ev :: tr' =>
      if held then outside_lock held tr' else ev :: outside_lock held tr'
  end.

(** Every acquire finds the lock free, every release finds it held, and the
    trace ends with the lock free. *)
Fixpoint lock_balanced (held : bool) (tr : list event) : bool :=
  match tr with
  | [] => negb held
  | EvAcquire :: tr' => negb held && lock_balanced true tr'
  | EvRelease :: tr' => held && lock_balanced false tr'
  | _ :: tr' => lock_balanced held tr'
  end.

Definition fields_read (tr : list event) : list field :=
  omap (fun ev => match ev with EvRead f => Some f | _ => None end) tr.

Definition fields_written (tr : list event) : list field :=
  omap (fun ev => match ev with EvWrite f => Some f | _ => None end) tr.

(** ** Concrete inputs *)

Definition sim_state (n : node_state) : state sim :=
  State n {| sim_time := 10; sim_position := 2 |}.

Definition trajectory_args (positions : list float)
    : gmap string json :=
  {[ "position" := JArr (map JNum positions) ]}.

Definition sinusoid_args : gmap string json :=
  <["amplitude" := JNum 1]> (<["period" := JNum 2]> (<["phase" := JNum 0]>
    (<["offset" := JNum 0]> {[ "num_cycle" := JNum 3 ]}))).

(** The thread [on_run_trajectory_command] starts for the sample array
    [positions]. *)
Definition trajectory_thread (dt : float) (positions : list float) : thread :=
  let t := scaled_arange dt (length positions) in
  Thread_run_trajectory
    (dt * float_of_nat (length positions - 1))%float
    {| interp_x := t; interp_y := positions |}
    {| interp_x := t; interp_y := trajectory_velocity dt positions |}
    false trajectory_motion_data_callback.

Definition set_running_motion_cmd {E} (v : bool) (s : state E) : state E :=
  State (attr_set self_running_motion_cmd v (node s)) (ext s).

(** ** Required arguments *)

(** The keys each handler looks up in [args_dict] before it does anything
    else, and the text it reports for a key that is not there. *)
Definition required_keys (command : string) : list string :=
  if String.eqb command "run" then ["velocity"]
  else if String.eqb command "move_to" then ["position"]
  else if String.eqb command "set_position" then ["position"]
  else if String.eqb command "set_move_mode" then ["mode"]
  else if String.eqb command "sinusoid" then param_keys
  else if String.eqb command "run_trajectory" then ["position"]
  else [].

Definition missing_message (command key : string) : string :=
  if String.eqb command "run_trajectory"
  then key +:+ " (array) argument missing"
  else key +:+ " argument missing".

Definition is_missing (args_dict : gmap string json) (key : string) : bool :=
  match args_dict !! key with
  | Some _ => false
  | None => true
  end.

Definition missing_keys (keys : list string) (args_dict : gmap string json)
    : list string :=
  List.filter (is_missing args_dict) keys.

(** [param] after the loop of [on_sinusoid_command]. *)
Definition collected (keys : list string) (args_dict param : gmap string json)
    : gmap string json :=
  foldl (fun p key => match args_dict !! key with
                      | Some v => <[key := v]> p
                      | None => p
                      end) param keys.

(** [resp_dict['message']] after the loop has met the keys [missing]. *)
Fixpoint append_missing (message : string) (missing : list string) : string :=
  match missing with
  | [] => message
  | key :: missing' =>
      append_missing
        ((if (0 <? String.length message)%nat then message +:+ ", "
          else message) +:+ key +:+ " argument missing")
        missing'
  end.

(** ** Floats as numbers *)

(** Two floats that are the same value, or the two zeros. *)
Definition same_number (x y : float) : Prop :=
  x = y \/ (x = 0%float /\ y = (-0)%float).

(** ** The lock, command by command *)

(** The driver calls a command makes while it holds the state lock, and the
    attributes it writes while it does not. *)
Definition locked_driver_calls (command : string) : list autostep_call :=
  if String.eqb command "enable_tracking_mode"
  then [run (JNum 0); set_move_mode_to_max]
  else if String.eqb command "disable_tracking_mode"
  then [set_move_mode_to_jog; run (JNum 0)]
  else [].

Definition unlocked_writes (command : string) : list field :=
  if String.eqb command "enable" then [F_enabled_flag]
  else if String.eqb command "release" then [F_enabled_flag]
  else [].

(** The attributes the state lock is meant for. *)
Definition guarded (f : field) : bool :=
  match f with
  | F_tracking_mode_gain | F_have_sensor => false
  | _ => true
  end.

(** What the specification asks of a trace: the guarded attributes are read
    and written only while the lock is held, and no driver call is made while
    it is held. *)
Definition lock_protects (tr : list event) : bool :=
  forallb (fun f => negb (guarded f))
          (fields_read (outside_lock false tr)
           ++ fields_written (outside_lock false tr)).

Definition no_locked_io (tr : list event) : bool :=
  match autostep_calls (under_lock false tr) with
  | [] => true
  | _ :: _ => false
  end.

Definition running_node : node_state :=
  attr_set self_running_motion_cmd true init_node.

(** The node over the simulated collaborator: just enabled for tracking, and
    after its first sample. *)
Definition awaiting_state : state sim :=
  res_state (command_srv_callback 1 "enable_tracking_mode" ∅
               (sim_state init_node)).

Definition tracking_state : state sim :=
  res_state (on_tracking_data_callback
               {| msg_position := 0; msg_velocity := 0 |} awaiting_state).

(** ** The request and the main loop *)

Set Warnings "-inexact-float".

(** [s.replace('\c', c)] for a brace [c]: every backslash that stands before
    [c] is dropped, scanning from the left. *)
Definition backslash : Ascii.ascii := Ascii.ascii_of_nat 92.

Definition open_brace : Ascii.ascii := Ascii.ascii_of_nat 123.

Definition close_brace : Ascii.ascii := Ascii.ascii_of_nat 125.

Fixpoint replace_escaped (c : Ascii.ascii) (s : string) : string :=
  match s with
  | EmptyString => EmptyString
  | String a rest =>
      match rest with
      | EmptyString => String a EmptyString
      | String b rest' =>
          if Ascii.eqb a backslash && Ascii.eqb b c
          then String c (replace_escaped c rest')
          else String a (replace_escaped c rest)
      end
  end.

(** The text [command_srv_callback] hands to [json.loads]. *)
Definition unescape_braces (args_json : string) : string :=
  replace_escaped close_brace (replace_escaped open_brace args_json).

(** [rospy.is_shutdown()] and [rospy.sleep(d)], the two calls of the node's
    main loop. *)
Class Shutdown (E : Type) := {
  rospy_is_shutdown : E -> bool * E;
  rospy_sleep : float -> E -> E }.

(** The simulated collaborator is shut down once its clock has passed 10.25;
    sleeping advances the clock. *)
#[global] Instance sim_shutdown : Shutdown sim := {
  rospy_is_shutdown := fun e => ((10.25 <=? sim_time e)%float, e);
  rospy_sleep := fun d e =>
    {| sim_time := (sim_time e + d)%float; sim_position := sim_position e |} }.

Section Service.

Context {E : Type} `{External E} `{Shutdown E}.

Variable TrajectoryDt : float.

(** [json.loads], the standard library's decoder: it gives the dictionary of
    the request or raises. *)
Variable json_loads : string -> outcome (gmap string json).

(** [command_srv_callback(req)] from the request's two strings. *)
Definition command_srv_callback_req (command args_json : string)
    : M E (gmap string json) :=
  args_dict <-
    (if String.eqb args_json "" then ret ∅
     else lift (json_loads (unescape_braces args_json))) ;;
  command_srv_callback TrajectoryDt command args_dict.

Definition sleep (d : float) : M E unit := fun s =>
  Result (Ret tt) (State (node s) (rospy_sleep d (ext s))) [].

(** [while not rospy.is_shutdown(): rospy.sleep(0.1)], for at most [fuel]
    polls; the answer tells whether the loop was left. *)
Fixpoint wait_for_shutdown (fuel : nat) : M E bool :=
  match fuel with
  | O => ret false
  | S fuel' =>
      down <- clock rospy_is_shutdown ;;
      if down then ret true
      else (sleep 0.1 ;;; wait_for_shutdown fuel')
  end.

(** [AutostepNode.run]: the loop, then [self.autostep.run(0.0)]. *)
Definition node_run (fuel : nat) : M E bool :=
  left_loop <- wait_for_shutdown fuel ;;
  if left_loop then
    autostep (run (JNum 0)) ;;;
    ret true
  else ret false.

(** The collaborator after [k] polls that found the node alive, each followed
    by its sleep, and whether the first [k] polls all find it alive. *)
Fixpoint after_polls (k : nat) (e : E) : E :=
  match k with
  | O => e
  | S k' => after_polls k' (rospy_sleep 0.1 (snd (rospy_is_shutdown e)))
  end.

Fixpoint alive_for (k : nat) (e : E) : bool :=
  match k with
  | O => true
  | S k' =>
      negb (fst (rospy_is_shutdown e))
      && alive_for k' (rospy_sleep 0.1 (snd (rospy_is_shutdown e)))
  end.

End Service.

(** The names of the service table. *)
Definition command_names : list string :=
  ["run"; "enable"; "release"; "is_busy"; "move_to"; "soft_stop";
   "set_position"; "get_position"; "set_move_mode"; "get_params";
   "print_params"; "sinusoid"; "run_trajectory"; "enable_tracking_mode";
   "disable_tracking_mode"].

(** A decoder for concrete runs: it knows the empty object. *)
Definition sim_loads (text : string) : outcome (gmap string json) :=
  if String.eqb text "{}" then Ret ∅ else Raise ValueError.

(** ** Reading a response *)

(** Whether a request was carried out: the handler returned, and its answer
    says success. *)
Definition accepted (o : outcome (gmap string json)) : bool :=
  match o with
  | Ret resp =>
      match resp !! "success" with
      | Some (JBool true) => true
      | _ => false
      end
  | Raise _ => false
  end.
Arguments accepted : simpl never.

(** The values of the tracking loop that one sample hands to the next. *)
Definition tracking_scratch (n : node_state)
    : float * float * float * float * float :=
  (tracking_mode_first_update_t n, tracking_mode_last_update_t n,
   tracking_mode_position n, tracking_mode_velocity n,
   tracking_mode_position_start n).

(** The sample callback run on one sample after the other. *)
Fixpoint on_tracking_data_all {E : Type} `{External E}
    (msgs : list TrackingData) : M E unit :=
  match msgs with
  | [] => ret tt
  | msg :: msgs' =>
      on_tracking_data_callback msg ;;;
      on_tracking_data_all msgs'
  end.

(** Whether a text holds a backslash that stands before [c], and the text in
    which every [c] has got a backslash before it. *)
Fixpoint has_escaped (c : Ascii.ascii) (s : string) : bool :=
  match s with
  | EmptyString => false
  | String a rest =>
      match rest with
      | EmptyString => false
      | String b _ =>
          (Ascii.eqb a backslash && Ascii.eqb b c) || has_escaped c rest
      end
  end.

Fixpoint escape (c : Ascii.ascii) (s : string) : string :=
  match s with
  | EmptyString => EmptyString
  | String a rest =>
      if Ascii.eqb a c then String backslash (String c (escape c rest))
      else String a (escape c rest)
  end.

(** * Properties *)

Section Properties.

Context {E : Type} `{External E}.

(** ** Strings, responses and floats *)

Lemma string_app_assoc (a b c : string) : (a +:+ b) +:+ c = a +:+ b +:+ c.
Proof.
  induction a as [|ch a IH]; [reflexivity|].
  change (String ch ((a +:+ b) +:+ c) = String ch (a +:+ b +:+ c)).
  rewrite IH. reflexivity.
Qed.

Lemma string_app_length (a b : string) :
  String.length (a +:+ b) = String.length a + String.length b.
Proof.
  induction a as [|ch a IH]; [reflexivity|].
  change (S (String.length (a +:+ b)) = S (String.length a + String.length b)).
  rewrite IH. reflexivity.
Qed.

Lemma response_inserts (success : bool) (message : string) :
  <["success" := JBool success]> ({["message" := JStr message]} : gmap string json)
  = response success message.
Proof.
  unfold response. rewrite insert_empty.
  apply insert_insert_ne. discriminate.
Qed.

Lemma response_inj (success success' : bool) (message message' : string) :
  response success message = response success' message' ->
  success = success' /\ message = message'.
Proof.
  intros Heq. split.
  - apply (f_equal (fun m => m !! "success")) in Heq. unfold response in Heq.
    do 2 (rewrite lookup_insert_ne, lookup_insert_eq in Heq by discriminate).
    congruence.
  - apply (f_equal (fun m => m !! "message")) in Heq. unfold response in Heq.
    rewrite !lookup_insert_eq in Heq. congruence.
Qed.

Lemma ret_response_neq (success success' : bool) (message message' : string) :
  success <> success' \/ message <> message' ->
  @Ret (gmap string json) (response success message)
  <> Ret (response success' message').
Proof.
  intros Hne Heq.
  assert (Hresp : response success message = response success' message')
    by congruence.
  apply response_inj in Hresp as [Hs Hm]. tauto.
Qed.

Lemma add_zero_same_number (x : float) : same_number (x + 0) x.
Proof.
  unfold same_number.
  destruct (Prim2SF x) as [sgn| | |sgn m e] eqn:Hx.
  - destruct sgn.
    + right. split; [|apply Prim2SF_inj; rewrite Hx; reflexivity].
      apply Prim2SF_inj. rewrite FloatAxioms.add_spec, Hx. reflexivity.
    + left. apply Prim2SF_inj. rewrite FloatAxioms.add_spec, Hx. reflexivity.
  - left. apply Prim2SF_inj. rewrite FloatAxioms.add_spec, Hx. reflexivity.
  - left. apply Prim2SF_inj. rewrite FloatAxioms.add_spec, Hx. reflexivity.
  - left. apply Prim2SF_inj. rewrite FloatAxioms.add_spec, Hx. reflexivity.
Qed.

(** ** The service table *)

(** Every request runs one of the fifteen handlers of the table, or is
    answered "unknown command". *)
Lemma table_get_In (table : list (string * handler E)) (command : string)
    (h : handler E) :
  table_get table command = Some h -> In (command, h) table.
Proof.
  induction table as [|[name h'] table IH]; cbn; [discriminate|].
  destruct (String.eqb_spec name command) as [->|_].
  - intros [= ->]. left. reflexivity.
  - intros Hget. right. apply IH, Hget.
Qed.

Lemma dispatch_cases (dt : float) (command : string)
    (args_dict : gmap string json) (P : M E (gmap string json) -> Prop) :
  (forall h, In (command, h) (command_srv_table dt) -> P (h args_dict)) ->
  (table_get (command_srv_table dt) command = None ->
   P (ret (response false "unknown command"))) ->
  P (command_srv_callback dt command args_dict).
Proof.
  intros Hhandlers Hunknown. unfold command_srv_callback.
  destruct (table_get (command_srv_table dt) command) as [h|] eqn:Hget.
  - apply Hhandlers. eapply table_get_In, Hget.
  - apply Hunknown. reflexivity.
Qed.

Lemma command_lookup (dt : float) (command : string) (h : handler E)
    (args_dict : gmap string json) :
  table_get (command_srv_table dt) command = Some h ->
  command_srv_callback dt command args_dict = h args_dict.
Proof. intros Hget. unfold command_srv_callback. rewrite Hget. reflexivity. Qed.

(** ** Missing arguments *)

Lemma collect_param_spec (keys : list string) (args_dict : gmap string json)
    (ok : bool) (param : gmap string json) (message : string) :
  collect_param keys args_dict ok param message
  = (ok && forallb (fun k => negb (is_missing args_dict k)) keys,
     collected keys args_dict param,
     append_missing message (missing_keys keys args_dict)).
Proof.
  revert ok param message.
  induction keys as [|key keys IH]; intros ok param message; cbn.
  - rewrite andb_true_r. reflexivity.
  - unfold is_missing at 1 3. destruct (args_dict !! key) as [v|]; cbn.
    + apply IH.
    + rewrite IH. rewrite andb_false_r. reflexivity.
Qed.

Lemma append_missing_nonempty (message : string) (missing : list string) :
  0 < String.length message ->
  append_missing message missing
  = match missing with
    | [] => message
    | _ :: _ =>
        message +:+ ", "
        +:+ String.concat ", " (map (fun k => k +:+ " argument missing") missing)
    end.
Proof.
  revert message.
  induction missing as [|key missing IH]; intros message Hlen; [reflexivity|].
  cbn [append_missing].
  destruct (Nat.ltb_spec 0 (String.length message)) as [_|?]; [|lia].
  rewrite IH.
  - destruct missing as [|key' missing]; cbn [map String.concat].
    + apply string_app_assoc.
    + rewrite !string_app_assoc. reflexivity.
  - rewrite !string_app_length. lia.
Qed.

Lemma append_missing_concat (missing : list string) :
  append_missing "" missing
  = String.concat ", " (map (fun k => k +:+ " argument missing") missing).
Proof.
  destruct missing as [|key missing]; [reflexivity|].
  cbn [append_missing String.length Nat.ltb Nat.leb].
  rewrite append_missing_nonempty.
  - destruct missing; reflexivity.
  - rewrite !string_app_length.
    change (String.length " argument missing") with 17. lia.
Qed.

Lemma forallb_present_missing (keys : list string)
    (args_dict : gmap string json) :
  forallb (fun k => negb (is_missing args_dict k)) keys = true
  <-> missing_keys keys args_dict = [].
Proof.
  unfold missing_keys. induction keys as [|key keys IH]; cbn; [done|].
  destruct (is_missing args_dict key); cbn; [|exact IH].
  split; discriminate.
Qed.

(** The sinusoid handler when a key is missing: nothing happens but the
    answer. *)
Lemma sinusoid_missing (args_dict : gmap string json) (s : state E) :
  missing_keys param_keys args_dict <> [] ->
  on_sinusoid_command args_dict s
  = Result (Ret (response false
             (String.concat ", "
                (map (fun k => k +:+ " argument missing")
                     (missing_keys param_keys args_dict))))) s [].
Proof.
  intros Hmiss. unfold on_sinusoid_command.
  rewrite collect_param_spec.
  destruct (forallb _ param_keys) eqn:Hall.
  - apply forallb_present_missing in Hall. contradiction.
  - cbn [andb]. rewrite append_missing_concat, response_inserts. reflexivity.
Qed.

(** The sinusoid handler when all five keys are there. *)
Lemma sinusoid_accepted (args_dict : gmap string json) (s : state E) :
  missing_keys param_keys args_dict = [] ->
  on_sinusoid_command args_dict s
  = Result (Ret (response true "")) (set_running_motion_cmd true s)
           [EvAcquire; EvWrite F_running_motion_cmd; EvRelease;
            EvThreadStart
              (Thread_sinusoid (collected param_keys args_dict ∅)
                 sinusoid_motion_data_callback
                 sinusoid_motion_done_callback)].
Proof.
  intros Hmiss. unfold on_sinusoid_command.
  rewrite collect_param_spec, Hmiss.
  apply forallb_present_missing in Hmiss. rewrite Hmiss.
  cbn [andb append_missing]. rewrite response_inserts. reflexivity.
Qed.

Lemma missing_single (args_dict : gmap string json) (key : string) :
  missing_keys [key] args_dict <> [] ->
  args_dict !! key = None /\ missing_keys [key] args_dict = [key].
Proof.
  unfold missing_keys, is_missing. cbn.
  destruct (args_dict !! key); [congruence | done].
Qed.

(** ** run_trajectory *)

Lemma json_numbers_map_JNum (xs : list float) :
  json_numbers (map JNum xs) = Some xs.
Proof. induction xs as [|x xs IH]; cbn; [|rewrite IH]; reflexivity. Qed.

Lemma trajectory_args_lookup (xs : list float) :
  trajectory_args xs !! "position" = Some (JArr (map JNum xs)).
Proof. apply lookup_singleton_eq. Qed.

Lemma last_scaled_arange (dt : float) (n : nat) :
  last_element (scaled_arange dt (S n)) = Ret (dt * float_of_nat n)%float.
Proof.
  unfold last_element, scaled_arange.
  rewrite seq_S, map_app. cbn [map]. rewrite last_snoc. reflexivity.
Qed.

Lemma length_scaled_arange (dt : float) (n : nat) :
  length (scaled_arange dt n) = n.
Proof. unfold scaled_arange. rewrite length_map. apply length_seq. Qed.

(** What the handler does with an array of at least two samples. *)
Lemma run_trajectory_accepted (dt : float) (args_dict : gmap string json)
    (v : json) (xs : list float) (s : state E) :
  args_dict !! "position" = Some v ->
  scipy_array v = Ret xs ->
  2 <= length xs ->
  on_run_trajectory_command dt args_dict s
  = Result (Ret (response true "")) (set_running_motion_cmd true s)
           [EvAcquire; EvWrite F_running_motion_cmd; EvRelease;
            EvThreadStart (trajectory_thread dt xs)].
Proof.
  intros Hget Harr Hlen. unfold on_run_trajectory_command.
  rewrite Hget. unfold bind at 1. unfold lift at 1. cbn [res_out res_state res_trace].
  rewrite Harr.
  destruct (length xs) as [|n] eqn:Hn; [lia|].
  unfold bind at 1. unfold lift at 1. cbn [res_out res_state res_trace].
  rewrite last_scaled_arange.
  unfold interp1d_new. rewrite length_scaled_arange.
  destruct n as [|n]; [lia|].
  unfold trajectory_thread. rewrite Hn. cbn. 
  replace (n - 0) with n by lia. reflexivity.
Qed.

(** The three ways [on_run_trajectory_command] ends. *)
Lemma run_trajectory_cases (dt : float) (args_dict : gmap string json)
    (s : state E) :
  on_run_trajectory_command dt args_dict s
  = Result (Ret (response false "position (array) argument missing")) s []
  \/ (exists e, on_run_trajectory_command dt args_dict s
                = Result (Raise e) s [])
  \/ (exists xs,
        on_run_trajectory_command dt args_dict s
        = Result (Ret (response true "")) (set_running_motion_cmd true s)
            [EvAcquire; EvWrite F_running_motion_cmd; EvRelease;
             EvThreadStart (trajectory_thread dt xs)]).
Proof.
  destruct (args_dict !! "position") as [v|] eqn:Hget.
  - destruct (scipy_array v) as [xs|e] eqn:Harr.
    + destruct xs as [|x0 [|x1 xs]].
      * right. left. exists IndexError.
        unfold on_run_trajectory_command. rewrite Hget.
        unfold bind, lift. cbn [res_out]. rewrite Harr. reflexivity.
      * right. left. exists ValueError.
        unfold on_run_trajectory_command. rewrite Hget.
        unfold bind, lift. cbn [res_out]. rewrite Harr. reflexivity.
      * right. right. exists (x0 :: x1 :: xs).
        eapply run_trajectory_accepted; [exact Hget|exact Harr|cbn; lia].
    + right. left. exists e.
      unfold on_run_trajectory_command. rewrite Hget.
      unfold bind, lift. cbn [res_out]. rewrite Harr. reflexivity.
  - left. unfold on_run_trajectory_command. rewrite Hget. reflexivity.
Qed.

(** C4 (as the code has it): for every command that requires arguments, a
    request in which some required key is missing is answered with
    success=false and the texts of the missing keys joined by ", ", and does
    nothing else: no driver call, no attribute access, no thread.  The text is
    "<key> argument missing"; for run_trajectory the one required key is
    "position" and its text is "position (array) argument missing". *)
Theorem missing_arguments_rejected (dt : float) (command : string)
    (args_dict : gmap string json) (s : state E) :
  missing_keys (required_keys command) args_dict <> [] ->
  command_srv_callback dt command args_dict s
  = Result
      (Ret (response false
              (String.concat ", "
                 (map (missing_message command)
                      (missing_keys (required_keys command) args_dict)))))
      s [].
Proof.
  unfold required_keys, missing_message.
  destruct (String.eqb_spec command "run") as [->|_].
  { intros [Hnone ->]%missing_single.
    rewrite (command_lookup _ _ on_run_command) by reflexivity.
    unfold on_run_command. rewrite Hnone. reflexivity. }
  destruct (String.eqb_spec command "move_to") as [->|_].
  { intros [Hnone ->]%missing_single.
    rewrite (command_lookup _ _ on_move_to_command) by reflexivity.
    unfold on_move_to_command. rewrite Hnone. reflexivity. }
  destruct (String.eqb_spec command "set_position") as [->|_].
  { intros [Hnone ->]%missing_single.
    rewrite (command_lookup _ _ on_set_position_command) by reflexivity.
    unfold on_set_position_command. rewrite Hnone. reflexivity. }
  destruct (String.eqb_spec command "set_move_mode") as [->|_].
  { intros [Hnone ->]%missing_single.
    rewrite (command_lookup _ _ on_set_move_mode_command) by reflexivity.
    unfold on_set_move_mode_command. rewrite Hnone. reflexivity. }
  destruct (String.eqb_spec command "sinusoid") as [->|_].
  { intros Hmiss.
    rewrite (command_lookup _ _ on_sinusoid_command) by reflexivity.
    apply sinusoid_missing, Hmiss. }
  destruct (String.eqb_spec command "run_trajectory") as [->|_].
  { intros [Hnone ->]%missing_single.
    rewrite (command_lookup _ _ (on_run_trajectory_command dt)) by reflexivity.
    unfold on_run_trajectory_command. rewrite Hnone. reflexivity. }
  intros Hmiss. exfalso. apply Hmiss. reflexivity.
Qed.

(** C8: a trajectory without samples, or with a single one, does not start a
    motion, and the handler ends with an exception instead of a response:
    [IndexError] from [t[-1]] on the empty array, [ValueError] from
    [interp1d] on one sample.  The service callback lets both through. *)
Theorem run_trajectory_short_raises (dt : float) (x : float) (s : state E) :
  command_srv_callback dt "run_trajectory" (trajectory_args []) s
  = Result (Raise IndexError) s []
  /\ command_srv_callback dt "run_trajectory" (trajectory_args [x]) s
     = Result (Raise ValueError) s [].
Proof.
  unfold command_srv_callback. cbn [table_get command_srv_table String.eqb].
  cbn. unfold on_run_trajectory_command.
  rewrite !trajectory_args_lookup. split; reflexivity.
Qed.

(** C5 (as the code computes it): for positions [0, 1, 2] at dt = 1.0 the
    thread is handed the position interpolant through (0,0), (1,1), (2,2) and
    the velocity interpolant through (0,0), (1,1), (2,1); position(0.5) = 0.5
    and velocity(0.5) = 0.5 (half way between the 0 at t_0 and the first
    difference 1 at t_1), and at the sample points the interpolants return
    the samples: position 0, 1, 2 and velocity 0, 1, 1. *)
Theorem trajectory_interpolants_0_1_2 (s : state E) :
  let position_func := {| interp_x := [0; 1; 2]; interp_y := [0; 1; 2] |}%float in
  let velocity_func := {| interp_x := [0; 1; 2]; interp_y := [0; 1; 1] |}%float in
  threads_started
    (res_trace (on_run_trajectory_command 1 (trajectory_args [0; 1; 2]%float) s))
  = [Thread_run_trajectory 2 position_func velocity_func false
       trajectory_motion_data_callback]
  /\ interp1d_call position_func 0.5 = Ret 0.5%float
  /\ interp1d_call velocity_func 0.5 = Ret 0.5%float
  /\ interp1d_call position_func 0 = Ret 0%float
  /\ interp1d_call position_func 1 = Ret 1%float
  /\ interp1d_call position_func 2 = Ret 2%float
  /\ interp1d_call velocity_func 0 = Ret 0%float
  /\ interp1d_call velocity_func 1 = Ret 1%float
  /\ interp1d_call velocity_func 2 = Ret 1%float.
Proof.
  intros position_func velocity_func. split.
  - rewrite (run_trajectory_accepted 1 _ (JArr (map JNum [0; 1; 2]%float))
               [0; 1; 2]%float).
    + reflexivity.
    + apply trajectory_args_lookup.
    + reflexivity.
    + cbn. lia.
  - repeat split; vm_compute; reflexivity.
Qed.

(** ** set_move_mode *)

(** C3: with a mode argument present the handler answers success and makes no
    driver call, whatever the mode is: for "max" no move-mode call is made,
    and any other value is answered with success too. *)
Theorem set_move_mode_never_applies (dt : float) (mode : json)
    (rest : gmap string json) (s : state E) :
  command_srv_callback dt "set_move_mode" (<["mode" := mode]> rest) s
  = Result (Ret (response true "")) s [].
Proof.
  unfold command_srv_callback. cbn [table_get command_srv_table String.eqb].
  cbn. unfold on_set_move_mode_command. rewrite lookup_insert_eq.
  reflexivity.
Qed.

(** ** Motion-starting commands *)

(** C1 (as the code has it): a motion-starting command whose arguments are
    accepted is answered with success, sets running_motion_cmd and starts one
    new thread in every state of the node, also when running_motion_cmd is
    already true; the handlers never read the flag. *)
Theorem motion_start_ignores_running_motion (dt : float) (s : state E)
    (sin_dict traj_dict : gmap string json) (v : json) (xs : list float) :
  missing_keys param_keys sin_dict = [] ->
  traj_dict !! "position" = Some v ->
  scipy_array v = Ret xs ->
  2 <= length xs ->
  command_srv_callback dt "sinusoid" sin_dict s
  = Result (Ret (response true "")) (set_running_motion_cmd true s)
      [EvAcquire; EvWrite F_running_motion_cmd; EvRelease;
       EvThreadStart
         (Thread_sinusoid (collected param_keys sin_dict ∅)
            sinusoid_motion_data_callback sinusoid_motion_done_callback)]
  /\ command_srv_callback dt "run_trajectory" traj_dict s
     = Result (Ret (response true "")) (set_running_motion_cmd true s)
         [EvAcquire; EvWrite F_running_motion_cmd; EvRelease;
          EvThreadStart (trajectory_thread dt xs)].
Proof.
  intros Hsin Hget Harr Hlen. split.
  - rewrite (command_lookup _ _ on_sinusoid_command) by reflexivity.
    apply sinusoid_accepted, Hsin.
  - rewrite (command_lookup _ _ (on_run_trajectory_command dt)) by reflexivity.
    eapply run_trajectory_accepted; eassumption.
Qed.

(** C2: an accepted run_trajectory sets running_motion_cmd and starts a
    thread that was handed no completion callback, so the end of the
    trajectory changes nothing and running_motion_cmd stays true; the thread
    of an accepted sinusoid carries its completion callback, and the end of
    that profile clears the flag under the lock. *)
Theorem run_trajectory_completion_not_signalled (dt : float)
    (x0 x1 : float) (xs : list float) (sin_param : gmap string json)
    (s : state E) :
  let r := command_srv_callback dt "run_trajectory"
             (trajectory_args (x0 :: x1 :: xs)) s in
  let t := trajectory_thread dt (x0 :: x1 :: xs) in
  res_out r = Ret (response true "")
  /\ threads_started (res_trace r) = [t]
  /\ running_motion_cmd (node (res_state r)) = true
  /\ thread_on_done t = None
  /\ thread_finish t (res_state r) = Result (Ret tt) (res_state r) []
  /\ thread_finish
       (Thread_sinusoid sin_param sinusoid_motion_data_callback
          sinusoid_motion_done_callback) (res_state r)
     = Result (Ret tt) (set_running_motion_cmd false (res_state r))
         [EvAcquire; EvWrite F_running_motion_cmd; EvRelease].
Proof.
  intros r t. subst r t.
  rewrite (command_lookup _ _ (on_run_trajectory_command dt)) by reflexivity.
  rewrite (run_trajectory_accepted dt _ (JArr (map JNum (x0 :: x1 :: xs)))
             (x0 :: x1 :: xs)).
  - repeat split; reflexivity.
  - apply trajectory_args_lookup.
  - unfold scipy_array. rewrite json_numbers_map_JNum. reflexivity.
  - cbn. lia.
Qed.

(** ** Handlers, case by case *)

Create HintDb handlers.
#[local] Hint Unfold on_run_command on_enable_command on_release_command
  on_is_busy_command on_move_to_command on_soft_stop_command
  on_set_position_command on_get_position_command on_set_move_mode_command
  on_get_params_command on_print_params_command
  on_enable_tracking_mode_command on_disable_tracking_mode_command
  enable release motion_done_callback
  motion_data_callback_sinusoid motion_data_callback_trajectory
  on_tracking_data_callback : handlers.

(** Taking the matches of a handler apart, one scrutinee at a time. *)
Ltac handler_step :=
  match goal with
  | |- context [match ?x with _ => _ end] => destruct x eqn:?
  end.

Ltac handler_cases :=
  lazymatch goal with
  | |- context [on_run_trajectory_command ?dt ?a ?s] =>
      let Heq := fresh "Heq" in
      destruct (run_trajectory_cases dt a s) as [Heq|[[? Heq]|[? Heq]]];
      rewrite Heq; cbn
  | |- context [on_sinusoid_command] =>
      unfold on_sinusoid_command; rewrite collect_param_spec;
      cbn; repeat (handler_step; cbn)
  | |- _ =>
      autounfold with handlers; cbn; repeat (handler_step; cbn)
  end.

Ltac each_handler tac :=
  apply dispatch_cases;
  [ let h := fresh "h" in
    let Hin := fresh "Hin" in
    intros h Hin; cbn [command_srv_table In] in Hin;
    repeat (destruct Hin as [[= <- <-]|Hin]; [tac|]); contradiction
  | intros _; tac ].

Lemma command_preserves_gain (dt : float) (command : string)
    (args_dict : gmap string json) (s : state E) :
  tracking_mode_gain
    (node (res_state (command_srv_callback dt command args_dict s)))
  = tracking_mode_gain (node s).
Proof.
  pattern (command_srv_callback dt command args_dict).
  each_handler ltac:(handler_cases; reflexivity).
Qed.

Lemma step_preserves_gain (dt : float) (s s' : state E) :
  node_step dt s s' ->
  tracking_mode_gain (node s') = tracking_mode_gain (node s).
Proof.
  intros Hstep. destruct Hstep.
  - apply command_preserves_gain.
  - handler_cases; reflexivity.
  - handler_cases; reflexivity.
  - handler_cases; reflexivity.
  - handler_cases; reflexivity.
  - reflexivity.
Qed.

(** [tracking_mode_gain] is set to 5.0 by [__init__] and is never assigned
    again. *)
Lemma reachable_gain (dt : float) (s : state E) :
  reachable dt s -> tracking_mode_gain (node s) = 5%float.
Proof.
  induction 1 as [e|s s' _ IH Hstep]; [reflexivity|].
  rewrite (step_preserves_gain dt s s' Hstep). exact IH.
Qed.

(** ** The tracking loop *)

(** C7: the first sample after tracking was enabled makes one driver call,
    the read of the current position, and no run_with_feedback; it stores
    that position as position_start and as position, sets velocity to 0 and
    first_update_t = last_update_t = now, and publishes one message whose
    setpoint (the predicted position) is position_start. *)
Theorem first_sample_initialises (msg : TrackingData) (s : state E) :
  tracking_mode_enabled (node s) = true ->
  tracking_mode_is_first (node s) = true ->
  let now := fst (rospy_get_time (ext s)) in
  let e1 := snd (rospy_get_time (ext s)) in
  let position_start := fst (autostep_get_position e1) in
  let e2 := snd (autostep_get_position e1) in
  let r := on_tracking_data_callback msg s in
  res_out r = Ret tt
  /\ autostep_calls (res_trace r) = [get_position]
  /\ published (res_trace r)
     = [ {| header := new_header (fst (rospy_Time_now e2));
            elapsed_time := (now - now)%float;
            position := position_start;
            setpoint := position_start;
            sensor := 0 |} ]
  /\ node (res_state r)
     = {| tracking_mode_gain := tracking_mode_gain (node s);
          tracking_mode_is_first := false;
          tracking_mode_first_update_t := now;
          tracking_mode_last_update_t := now;
          tracking_mode_position := position_start;
          tracking_mode_velocity := 0;
          tracking_mode_position_start := position_start;
          have_sensor := have_sensor (node s);
          enabled_flag := enabled_flag (node s);
          tracking_mode_enabled := true;
          running_motion_cmd := running_motion_cmd (node s) |}.
Proof.
  intros Hen Hfirst now e1 position_start e2 r. subst r.
  unfold on_tracking_data_callback.
  cbn. rewrite Hen. cbn. rewrite Hfirst. cbn. rewrite Hen.
  repeat split; reflexivity.
Qed.

(** C6: a sample that is not the first one of an enabled tracking session.
    With dt = now - last_update_t, predicted = position + dt * velocity,
    error = sample.position - (predicted - position_start) and
    command_velocity = 5.0 * error + sample.velocity, the callback makes one
    driver call, run_with_feedback(command_velocity); it stores the measured
    position returned, command_velocity and now, and publishes
    (last_update_t - first_update_t, position, predicted, 0.0).  For a sample
    with position 0 and velocity 0 the driver receives 5.0 * error (the value
    5.0 * error + 0.0, which is that number). *)
Theorem tracking_sample_control_law (dt : float) (msg : TrackingData)
    (s : state E) :
  reachable dt s ->
  tracking_mode_enabled (node s) = true ->
  tracking_mode_is_first (node s) = false ->
  let now := fst (rospy_get_time (ext s)) in
  let e1 := snd (rospy_get_time (ext s)) in
  let update_dt := (now - tracking_mode_last_update_t (node s))%float in
  let predicted :=
    (tracking_mode_position (node s)
     + update_dt * tracking_mode_velocity (node s))%float in
  let error :=
    (msg_position msg
     - (predicted - tracking_mode_position_start (node s)))%float in
  let command_velocity := (5 * error + msg_velocity msg)%float in
  let measured := fst (autostep_run_with_feedback command_velocity e1) in
  let e2 := snd (autostep_run_with_feedback command_velocity e1) in
  let r := on_tracking_data_callback msg s in
  res_out r = Ret tt
  /\ autostep_calls (res_trace r) = [run_with_feedback command_velocity]
  /\ node (res_state r)
     = {| tracking_mode_gain := 5;
          tracking_mode_is_first := false;
          tracking_mode_first_update_t :=
            tracking_mode_first_update_t (node s);
          tracking_mode_last_update_t := now;
          tracking_mode_position := measured;
          tracking_mode_velocity := command_velocity;
          tracking_mode_position_start :=
            tracking_mode_position_start (node s);
          have_sensor := have_sensor (node s);
          enabled_flag := enabled_flag (node s);
          tracking_mode_enabled := true;
          running_motion_cmd := running_motion_cmd (node s) |}
  /\ published (res_trace r)
     = [ {| header := new_header (fst (rospy_Time_now e2));
            elapsed_time :=
              (now - tracking_mode_first_update_t (node s))%float;
            position := measured;
            setpoint := predicted;
            sensor := 0 |} ]
  /\ (msg_position msg = 0%float -> msg_velocity msg = 0%float ->
      same_number command_velocity
        (5 * (0 - (predicted - tracking_mode_position_start (node s))))%float).
Proof.
  intros Hreach Hen Hfirst now e1 update_dt predicted error command_velocity
    measured e2 r.
  apply reachable_gain in Hreach.
  subst r. unfold on_tracking_data_callback.
  cbn. rewrite Hen. cbn. rewrite Hfirst. cbn. rewrite Hen, Hfirst, Hreach.
  repeat split; try reflexivity.
  intros Hpos Hvel. subst command_velocity error.
  rewrite Hpos, Hvel. apply add_zero_same_number.
Qed.

(** C10: enable_tracking_mode answers success in every state, after
    commanding velocity 0 and the max move mode under the lock, and leaves
    tracking enabled with is_first set, also when tracking was enabled and
    running before; the next sample then takes the first-sample path again:
    its one driver call reads the position, which becomes the new
    position_start and position, with velocity 0 and both time stamps now. *)
Theorem enable_tracking_mode_restarts (dt : float)
    (args_dict : gmap string json) (msg : TrackingData) (s : state E) :
  let r := command_srv_callback dt "enable_tracking_mode" args_dict s in
  let e0 := autostep_do set_move_mode_to_max
              (autostep_do (run (JNum 0)) (ext s)) in
  let now := fst (rospy_get_time e0) in
  let start := fst (autostep_get_position (snd (rospy_get_time e0))) in
  let r' := on_tracking_data_callback msg (res_state r) in
  res_out r = Ret (response true "")
  /\ res_trace r
     = [EvAcquire; EvAutostep (run (JNum 0)); EvAutostep set_move_mode_to_max;
        EvWrite F_tracking_mode_enabled; EvWrite F_tracking_mode_is_first;
        EvRelease]
  /\ tracking_mode_enabled (node (res_state r)) = true
  /\ tracking_mode_is_first (node (res_state r)) = true
  /\ ext (res_state r) = e0
  /\ autostep_calls (res_trace r') = [get_position]
  /\ tracking_mode_is_first (node (res_state r')) = false
  /\ tracking_mode_position_start (node (res_state r')) = start
  /\ tracking_mode_position (node (res_state r')) = start
  /\ tracking_mode_velocity (node (res_state r')) = 0%float
  /\ tracking_mode_first_update_t (node (res_state r')) = now
  /\ tracking_mode_last_update_t (node (res_state r')) = now
  /\ map setpoint (published (res_trace r')) = [start].
Proof.
  intros r e0 now start r'. subst r' r.
  rewrite (command_lookup _ _ on_enable_tracking_mode_command) by reflexivity.
  repeat split; reflexivity.
Qed.

(** ** The state lock *)

Lemma unknown_command_names (dt : float) (command : string) :
  table_get (@command_srv_table E _ dt) command = None ->
  locked_driver_calls command = [] /\ unlocked_writes command = [].
Proof.
  intros Hnone. unfold locked_driver_calls, unlocked_writes.
  destruct (String.eqb_spec command "enable_tracking_mode") as [->|_];
    [discriminate Hnone|].
  destruct (String.eqb_spec command "disable_tracking_mode") as [->|_];
    [discriminate Hnone|].
  destruct (String.eqb_spec command "enable") as [->|_];
    [discriminate Hnone|].
  destruct (String.eqb_spec command "release") as [->|_];
    [discriminate Hnone|].
  split; reflexivity.
Qed.

(** C9 (as the code has it): the state lock is taken and released within a
    handler and never taken while held, and there is no other lock.  Commands
    write tracking_mode_enabled, tracking_mode_is_first and running_motion_cmd
    only while holding it, and read none of the node's flags; enable and release write
    enabled_flag without it.  The driver calls made while the lock is held are
    those of enable_tracking_mode (run(0), max mode) and of
    disable_tracking_mode (jog mode, run(0)), no others.  The sample callback
    holds the lock for its first read of tracking_mode_enabled only, so every
    access it makes to the tracking scratch attributes, and its driver call,
    happen without the lock; the completion callback writes running_motion_cmd
    under the lock and does nothing else. *)
Theorem state_lock_usage (dt : float) (command : string)
    (args_dict : gmap string json) (msg : TrackingData) (s : state E) :
  let commanded := res_trace (command_srv_callback dt command args_dict s) in
  let sampled := res_trace (on_tracking_data_callback msg s) in
  let done := res_trace (motion_done_callback s) in
  (lock_balanced false commanded = true
   /\ fields_read commanded = []
   /\ fields_written (outside_lock false commanded) = unlocked_writes command
   /\ autostep_calls (under_lock false commanded)
      = locked_driver_calls command)
  /\ (lock_balanced false sampled = true
      /\ under_lock false sampled = [EvRead F_tracking_mode_enabled])
  /\ (lock_balanced false done = true
      /\ under_lock false done = [EvWrite F_running_motion_cmd]
      /\ outside_lock false done = []).
Proof.
  intros commanded sampled done. subst commanded sampled done.
  split; [|split].
  - pattern (command_srv_callback dt command args_dict).
    apply dispatch_cases.
    + intros h Hin. cbn [command_srv_table In] in Hin.
      repeat (destruct Hin as [[= <- <-]|Hin];
              [handler_cases; repeat split; reflexivity|]).
      contradiction.
    + intros [-> ->]%unknown_command_names. repeat split; reflexivity.
  - handler_cases; split; reflexivity.
  - repeat split; reflexivity.
Qed.

(** ** The service as a whole *)

Lemma table_get_None (table : list (string * handler E)) (command : string) :
  command ∉ map fst table -> table_get table command = None.
Proof.
  induction table as [|[name h] table IH]; cbn; [reflexivity|].
  intros Hnot. apply not_elem_of_cons in Hnot as [Hne Hnot].
  destruct (String.eqb_spec name command) as [->|_]; [contradiction|].
  apply IH, Hnot.
Qed.

(** X1: a command name that is not one of the fifteen of the table is
    answered "unknown command", whatever its arguments, and nothing else
    happens. *)
Theorem unknown_command_rejected (dt : float) (command : string)
    (args_dict : gmap string json) (s : state E) :
  command ∉ command_names ->
  command_srv_callback dt command args_dict s
  = Result (Ret (response false "unknown command")) s [].
Proof.
  intros Hnot. unfold command_srv_callback.
  rewrite table_get_None; [reflexivity|exact Hnot].
Qed.

Lemma concat_missing_nonempty (key : string) (keys : list string) :
  String.concat ", " (map (fun k => k +:+ " argument missing") (key :: keys))
  <> "".
Proof.
  intros Heq. apply (f_equal String.length) in Heq. revert Heq.
  cbn [map String.concat]. destruct (map _ keys);
    rewrite ?string_app_length;
    change (String.length " argument missing") with 17;
    change (String.length "") with 0; lia.
Qed.

(** The two ways [on_sinusoid_command] ends. *)
Lemma sinusoid_cases (args_dict : gmap string json) (s : state E) :
  (exists message,
      message <> ""
      /\ on_sinusoid_command args_dict s
         = Result (Ret (response false message)) s [])
  \/ on_sinusoid_command args_dict s
     = Result (Ret (response true "")) (set_running_motion_cmd true s)
         [EvAcquire; EvWrite F_running_motion_cmd; EvRelease;
          EvThreadStart
            (Thread_sinusoid (collected param_keys args_dict ∅)
               sinusoid_motion_data_callback sinusoid_motion_done_callback)].
Proof.
  destruct (missing_keys param_keys args_dict) as [|key keys] eqn:Hmiss.
  - right. apply sinusoid_accepted, Hmiss.
  - left. eexists. split; [|rewrite sinusoid_missing, Hmiss by congruence;
                             reflexivity].
    apply concat_missing_nonempty.
Qed.

(** As [handler_step], innermost scrutinee first. *)
Ltac outcome_step :=
  match goal with
  | |- context [match ?x with _ => _ end] =>
      lazymatch x with
      | context [match _ with _ => _ end] => fail
      | _ => destruct x eqn:?
      end
  end.

Ltac outcome_cases :=
  lazymatch goal with
  | |- context [on_run_trajectory_command ?dt ?a ?s] =>
      let Heq := fresh "Heq" in
      destruct (run_trajectory_cases dt a s) as [Heq|[[? Heq]|[? Heq]]];
      rewrite Heq; cbn
  | |- context [on_sinusoid_command ?a ?s] =>
      let Heq := fresh "Heq" in
      let Hmsg := fresh "Hmsg" in
      destruct (sinusoid_cases a s) as [[? [Hmsg Heq]]|Heq];
      rewrite Heq; cbn
  | |- _ =>
      autounfold with handlers; cbn; repeat (outcome_step; cbn)
  end.

Lemma response_success (success : bool) (message : string) :
  response success message !! "success" = Some (JBool success).
Proof.
  unfold response. rewrite lookup_insert_ne by discriminate.
  apply lookup_insert_eq.
Qed.

Lemma response_message (success : bool) (message : string) :
  response success message !! "message" = Some (JStr message).
Proof. unfold response. apply lookup_insert_eq. Qed.

(** X2: whenever a handler returns, its answer carries a boolean under
    "success" and a text under "message", and the text is empty exactly when
    the answer says success. *)
Theorem response_well_formed (dt : float) (command : string)
    (args_dict resp : gmap string json) (s : state E) :
  res_out (command_srv_callback dt command args_dict s) = Ret resp ->
  exists success message,
    resp !! "success" = Some (JBool success)
    /\ resp !! "message" = Some (JStr message)
    /\ (success = true <-> message = "").
Proof.
  revert resp. pattern (command_srv_callback dt command args_dict).
  each_handler ltac:(
    intros resp; outcome_cases; intros Hret;
    first [ discriminate Hret
          | injection Hret as <-;
            eexists _, _;
            rewrite ?lookup_insert_ne by discriminate;
            rewrite response_success, response_message;
            split; [reflexivity|]; split; [reflexivity|];
            split; intros; first [reflexivity | congruence | discriminate] ]).
Qed.


(** X4: no command publishes a message; a command starts at most one thread,
    and only sinusoid and run_trajectory start one. *)
Theorem commands_publish_nothing (dt : float) (command : string)
    (args_dict : gmap string json) (s : state E) :
  let tr := res_trace (command_srv_callback dt command args_dict s) in
  published tr = []
  /\ length (threads_started tr) <= 1
  /\ (threads_started tr = []
      \/ command = "sinusoid" \/ command = "run_trajectory").
Proof.
  cbv zeta. pattern (command_srv_callback dt command args_dict).
  each_handler ltac:(
    outcome_cases;
    (split; [reflexivity|]); (split; [cbn; lia|]);
    first [ left; reflexivity | right; left; reflexivity
          | right; right; reflexivity ]).
Qed.

Lemma accepted_response (success : bool) (message : string) :
  accepted (Ret (response success message)) = success.
Proof.
  unfold accepted. rewrite response_success. destruct success; reflexivity.
Qed.

(** X5: a request that is not carried out (its answer says success=false, or
    the handler raises) leaves the node and the driver as they were and emits
    no event: no driver call, no attribute access, no thread. *)
Theorem refused_request_changes_nothing (dt : float) (command : string)
    (args_dict : gmap string json) (s : state E) :
  accepted (res_out (command_srv_callback dt command args_dict s)) = false ->
  res_state (command_srv_callback dt command args_dict s) = s
  /\ res_trace (command_srv_callback dt command args_dict s) = [].
Proof.
  pattern (command_srv_callback dt command args_dict).
  each_handler ltac:(
    outcome_cases;
    first [ intros _; split; reflexivity
          | unfold accepted;
            rewrite ?lookup_insert_ne by discriminate;
            rewrite response_success; intros Hacc; discriminate Hacc ]).
Qed.

(** X6: no command changes what the tracking loop keeps between samples
    (the two time stamps, position, velocity, position_start), the gain or
    have_sensor; only enable_tracking_mode changes is_first; and only the six
    commands enable, release, sinusoid, run_trajectory, enable_tracking_mode
    and disable_tracking_mode change any attribute at all. *)
Theorem commands_keep_tracking_scratch (dt : float) (command : string)
    (args_dict : gmap string json) (s : state E) :
  let n' := node (res_state (command_srv_callback dt command args_dict s)) in
  tracking_scratch n' = tracking_scratch (node s)
  /\ tracking_mode_gain n' = tracking_mode_gain (node s)
  /\ have_sensor n' = have_sensor (node s)
  /\ (tracking_mode_is_first n' = tracking_mode_is_first (node s)
      \/ command = "enable_tracking_mode")
  /\ (n' = node s
      \/ command ∈ ["enable"; "release"; "sinusoid"; "run_trajectory";
                    "enable_tracking_mode"; "disable_tracking_mode"]).
Proof.
  cbv zeta. pattern (command_srv_callback dt command args_dict).
  each_handler ltac:(
    outcome_cases;
    repeat (split; [reflexivity|]);
    (split; [first [left; reflexivity | right; reflexivity]|]);
    first [ left; reflexivity | right; set_solver ]).
Qed.

(** ** enable and release *)

(** X7: enable and release each make one driver call and write enabled_flag
    (true, false) and nothing else, whatever the arguments and the state; of
    two in a row the last one decides the attributes, and enable after enable
    leaves them as one enable does. *)
Theorem enable_release_last_wins (dt : float)
    (args1 args2 : gmap string json) (s : state E) :
  let on := command_srv_callback dt "enable" args1 s in
  let off := command_srv_callback dt "release" args1 s in
  (on = Result (Ret (response true ""))
          (State (attr_set self_enabled_flag true (node s))
                 (autostep_do Autostep.enable (ext s)))
          [EvAutostep Autostep.enable; EvWrite F_enabled_flag]
   /\ off = Result (Ret (response true ""))
              (State (attr_set self_enabled_flag false (node s))
                     (autostep_do Autostep.release (ext s)))
              [EvAutostep Autostep.release; EvWrite F_enabled_flag])
  /\ node (res_state (command_srv_callback dt "release" args2 (res_state on)))
     = node (res_state off)
  /\ node (res_state (command_srv_callback dt "enable" args2 (res_state off)))
     = node (res_state on)
  /\ node (res_state (command_srv_callback dt "enable" args2 (res_state on)))
     = node (res_state on).
Proof.
  cbv zeta.
  rewrite !(command_lookup _ _ on_enable_command) by reflexivity.
  rewrite !(command_lookup _ _ on_release_command) by reflexivity.
  repeat split; reflexivity.
Qed.

(** ** sinusoid *)

Lemma collected_lookup (keys : list string)
    (args_dict param : gmap string json) (k : string) :
  collected keys args_dict param !! k
  = if bool_decide (k ∈ keys)
    then match args_dict !! k with
         | Some v => Some v
         | None => param !! k
         end
    else param !! k.
Proof.
  revert param. induction keys as [|key keys IH]; intros param.
  - reflexivity.
  - cbn [collected foldl]. fold (collected keys args_dict).
    destruct (args_dict !! key) as [v|] eqn:Hkey.
    + change (collected keys args_dict (<[key:=v]> param) !! k = 
              if bool_decide (k ∈ key :: keys)
              then match args_dict !! k with
                   | Some v => Some v
                   | None => param !! k
                   end
              else param !! k).
      rewrite IH.
      destruct (decide (k = key)) as [->|Hne].
      * rewrite Hkey, lookup_insert_eq.
        rewrite (bool_decide_eq_true_2 (key ∈ key :: keys))
          by apply list_elem_of_here.
        destruct (bool_decide (key ∈ keys)); reflexivity.
      * rewrite lookup_insert_ne by congruence.
        rewrite (bool_decide_ext (k ∈ key :: keys) (k ∈ keys))
          by (rewrite elem_of_cons; tauto).
        reflexivity.
    + change (collected keys args_dict param !! k = 
              if bool_decide (k ∈ key :: keys)
              then match args_dict !! k with
                   | Some v => Some v
                   | None => param !! k
                   end
              else param !! k).
      rewrite IH.
      destruct (decide (k = key)) as [->|Hne].
      * rewrite Hkey.
        rewrite (bool_decide_eq_true_2 (key ∈ key :: keys))
          by apply list_elem_of_here.
        destruct (bool_decide (key ∈ keys)); reflexivity.
      * rewrite (bool_decide_ext (k ∈ key :: keys) (k ∈ keys))
          by (rewrite elem_of_cons; tauto).
        reflexivity.
Qed.

(** X8: the thread of an accepted sinusoid request is handed a dictionary
    with the five parameters and nothing else: each parameter has the value
    of the request, and any other key of the request is dropped. *)
Theorem sinusoid_param_is_the_five_keys (dt : float)
    (args_dict : gmap string json) (s : state E) :
  missing_keys param_keys args_dict = [] ->
  exists param,
    threads_started
      (res_trace (command_srv_callback dt "sinusoid" args_dict s))
    = [Thread_sinusoid param sinusoid_motion_data_callback
         sinusoid_motion_done_callback]
    /\ forall k,
         param !! k
         = if bool_decide (k ∈ param_keys) then args_dict !! k else None.
Proof.
  intros Hmiss. exists (collected param_keys args_dict ∅).
  rewrite (command_lookup _ _ on_sinusoid_command) by reflexivity.
  rewrite sinusoid_accepted by exact Hmiss.
  split; [reflexivity|].
  intros k. rewrite collected_lookup, lookup_empty.
  destruct (bool_decide (k ∈ param_keys)); [|reflexivity].
  destruct (args_dict !! k); reflexivity.
Qed.

(** X9: an accepted sinusoid request followed by the end of the thread it
    started brings a node whose running_motion_cmd was false back to the
    state it was in, attributes and driver alike. *)
Theorem sinusoid_round_trip (dt : float) (args_dict : gmap string json)
    (s : state E) :
  missing_keys param_keys args_dict = [] ->
  running_motion_cmd (node s) = false ->
  exists t,
    threads_started
      (res_trace (command_srv_callback dt "sinusoid" args_dict s)) = [t]
    /\ res_out
         (thread_finish t
            (res_state (command_srv_callback dt "sinusoid" args_dict s)))
       = Ret tt
    /\ res_state
         (thread_finish t
            (res_state (command_srv_callback dt "sinusoid" args_dict s)))
       = s.
Proof.
  intros Hmiss Hrun.
  rewrite (command_lookup _ _ on_sinusoid_command) by reflexivity.
  rewrite sinusoid_accepted by exact Hmiss.
  eexists. split; [reflexivity|]. split; [reflexivity|].
  destruct s as [n e]. destruct n. cbn in Hrun. subst. reflexivity.
Qed.

(** ** The arrays of a trajectory *)






(** ** Samples *)

Lemma callback_when_disabled (msg : TrackingData) (s : state E) :
  tracking_mode_enabled (node s) = false ->
  on_tracking_data_callback msg s
  = Result (Ret tt) s
      [EvAcquire; EvRead F_tracking_mode_enabled; EvRelease;
       EvRead F_tracking_mode_enabled].
Proof.
  intros Hoff. unfold on_tracking_data_callback. cbn. rewrite Hoff. cbn.
  destruct s. reflexivity.
Qed.

(** X11: a sample that arrives while tracking is not enabled is dropped: the
    callback reads tracking_mode_enabled (once under the lock, once after it)
    and does nothing else, so node and driver stay as they were. *)
Theorem sample_dropped_when_disabled (msg : TrackingData) (s : state E) :
  tracking_mode_enabled (node s) = false ->
  on_tracking_data_callback msg s
  = Result (Ret tt) s
      [EvAcquire; EvRead F_tracking_mode_enabled; EvRelease;
       EvRead F_tracking_mode_enabled].
Proof. apply callback_when_disabled. Qed.

Lemma samples_dropped_when_disabled (msgs : list TrackingData) (s : state E) :
  tracking_mode_enabled (node s) = false ->
  res_out (on_tracking_data_all msgs s) = Ret tt
  /\ res_state (on_tracking_data_all msgs s) = s
  /\ autostep_calls (res_trace (on_tracking_data_all msgs s)) = []
  /\ published (res_trace (on_tracking_data_all msgs s)) = [].
Proof.
  intros Hoff. induction msgs as [|msg msgs IH]; [repeat split|].
  cbn [on_tracking_data_all]. unfold bind.
  rewrite (callback_when_disabled msg s Hoff).
  cbn [res_out res_state res_trace].
  destruct IH as (Hout & Hstate & Hcalls & Hpub).
  rewrite Hout, Hstate.
  split; [reflexivity|]. split; [reflexivity|].
  change (autostep_calls (res_trace (on_tracking_data_all msgs s)) = []
          /\ published (res_trace (on_tracking_data_all msgs s)) = []).
  split; assumption.
Qed.

(** X12: disable_tracking_mode, in every state, is answered with success,
    ends its driver calls with run(0.0), and leaves tracking disabled, so that
    any samples that follow are dropped: they cause no driver call and no
    message, and the node stays as the command left it. *)
Theorem disable_tracking_mode_stops_the_loop (dt : float)
    (args_dict : gmap string json) (msgs : list TrackingData) (s : state E) :
  let r := command_srv_callback dt "disable_tracking_mode" args_dict s in
  let r' := on_tracking_data_all msgs (res_state r) in
  res_out r = Ret (response true "")
  /\ last (autostep_calls (res_trace r)) = Some (run (JNum 0))
  /\ node (res_state r) = attr_set self_tracking_mode_enabled false (node s)
  /\ res_out r' = Ret tt
  /\ res_state r' = res_state r
  /\ autostep_calls (res_trace r') = []
  /\ published (res_trace r') = [].
Proof.
  cbv zeta.
  rewrite (command_lookup _ _ on_disable_tracking_mode_command)
    by reflexivity.
  split; [reflexivity|]. split; [reflexivity|]. split; [reflexivity|].
  apply samples_dropped_when_disabled. reflexivity.
Qed.

(** X13: the sample callback, in every state and for every sample, returns
    without an exception and starts no thread; it makes at most one driver
    call; it publishes one message, with sensor 0.0, when tracking is enabled
    and none otherwise; and it leaves tracking_mode_enabled, enabled_flag,
    running_motion_cmd, the gain and have_sensor as they were. *)
Theorem sample_callback_footprint (msg : TrackingData) (s : state E) :
  let r := on_tracking_data_callback msg s in
  res_out r = Ret tt
  /\ threads_started (res_trace r) = []
  /\ length (autostep_calls (res_trace r)) <= 1
  /\ length (published (res_trace r))
     = (if tracking_mode_enabled (node s) then 1 else 0)
  /\ map sensor (published (res_trace r))
     = (if tracking_mode_enabled (node s) then [0%float] else [])
  /\ tracking_mode_enabled (node (res_state r))
     = tracking_mode_enabled (node s)
  /\ enabled_flag (node (res_state r)) = enabled_flag (node s)
  /\ running_motion_cmd (node (res_state r)) = running_motion_cmd (node s)
  /\ tracking_mode_gain (node (res_state r)) = tracking_mode_gain (node s)
  /\ have_sensor (node (res_state r)) = have_sensor (node s).
Proof.
  cbv zeta. unfold on_tracking_data_callback. cbn.
  destruct (tracking_mode_enabled (node s)) eqn:Hen; cbn.
  - destruct (tracking_mode_is_first (node s)) eqn:Hfirst; cbn;
      rewrite ?Hen; repeat split; reflexivity || lia.
  - rewrite ?Hen. repeat split; reflexivity || lia.
Qed.

Lemma command_preserves_have_sensor (dt : float) (command : string)
    (args_dict : gmap string json) (s : state E) :
  have_sensor (node (res_state (command_srv_callback dt command args_dict s)))
  = have_sensor (node s).
Proof.
  pattern (command_srv_callback dt command args_dict).
  each_handler ltac:(handler_cases; reflexivity).
Qed.

Lemma reachable_have_sensor (dt : float) (s : state E) :
  reachable dt s -> have_sensor (node s) = false.
Proof.
  induction 1 as [e|s s' _ IH Hstep]; [reflexivity|].
  rewrite <- IH. destruct Hstep.
  - apply command_preserves_have_sensor.
  - handler_cases; reflexivity.
  - handler_cases; reflexivity.
  - handler_cases; reflexivity.
  - handler_cases; reflexivity.
  - reflexivity.
Qed.

(** X14: have_sensor is false from [__init__] on and is never assigned, so in
    every reachable state the data callback of a sinusoid publishes the
    elapsed time, position and setpoint it is given with sensor 0.0, whatever
    sensor value the thread passes; it makes no driver call and changes no
    attribute. *)
Theorem sinusoid_telemetry_has_no_sensor (dt : float)
    (elapsed_time position setpoint sensor : float) (s : state E) :
  reachable dt s ->
  let r := motion_data_callback_sinusoid
             elapsed_time position setpoint sensor s in
  res_out r = Ret tt
  /\ published (res_trace r)
     = [ {| header := new_header (fst (rospy_Time_now (ext s)));
            elapsed_time := elapsed_time;
            position := position;
            setpoint := setpoint;
            sensor := 0 |} ]
  /\ autostep_calls (res_trace r) = []
  /\ node (res_state r) = node s.
Proof.
  intros Hreach. apply reachable_have_sensor in Hreach. cbv zeta.
  unfold motion_data_callback_sinusoid. cbn. rewrite Hreach.
  repeat split; reflexivity.
Qed.

End Properties.

(** * The request and the main loop *)

Section ServiceProperties.

Context {E : Type} `{External E} `{Shutdown E}.

Lemma bind_ret_l {A B : Type} (a : A) (k : A -> M E B) (s : state E) :
  bind (ret a) k s = k a s.
Proof. unfold bind, ret. cbn. destruct (k a s). reflexivity. Qed.

(** X15: a request without arguments (an empty args_json) is dispatched with
    the empty dictionary and the decoder is not consulted.  When the decoder
    raises on a non-empty args_json the exception leaves the callback before
    the command is looked up: nothing happens, and even an unknown command
    gets no "unknown command" answer. *)
Theorem request_decoding (dt : float)
    (json_loads : string -> outcome (gmap string json))
    (command args_json : string) (e : exn) (s : state E) :
  args_json <> "" ->
  json_loads (unescape_braces args_json) = Raise e ->
  command_srv_callback_req dt json_loads command "" s
  = command_srv_callback dt command ∅ s
  /\ command_srv_callback_req dt json_loads command args_json s
     = Result (Raise e) s [].
Proof.
  intros Hne Hraise. unfold command_srv_callback_req. split.
  - cbn [String.eqb]. apply bind_ret_l.
  - destruct (String.eqb_spec args_json "") as [Heq|_]; [contradiction|].
    unfold bind, lift. cbn [res_out]. rewrite Hraise. reflexivity.
Qed.

Lemma replace_escaped_id (c : Ascii.ascii) (s : string) :
  has_escaped c s = false -> replace_escaped c s = s.
Proof.
  induction s as [|a rest IH]; [reflexivity|].
  destruct rest as [|b rest']; [reflexivity|].
  change (has_escaped c (String a (String b rest')))
    with ((Ascii.eqb a backslash && Ascii.eqb b c)
          || has_escaped c (String b rest')).
  change (replace_escaped c (String a (String b rest')))
    with (if Ascii.eqb a backslash && Ascii.eqb b c
          then String c (replace_escaped c rest')
          else String a (replace_escaped c (String b rest'))).
  destruct (Ascii.eqb a backslash && Ascii.eqb b c); [discriminate|].
  cbn [orb]. intros Hrest. rewrite IH by exact Hrest. reflexivity.
Qed.

(** X16: a text in which no backslash stands before a brace reaches the
    decoder unchanged. *)
Theorem unescape_braces_plain (args_json : string) :
  has_escaped open_brace args_json = false ->
  has_escaped close_brace args_json = false ->
  unescape_braces args_json = args_json.
Proof.
  intros Hopen Hclose. unfold unescape_braces.
  rewrite (replace_escaped_id open_brace) by exact Hopen.
  apply replace_escaped_id, Hclose.
Qed.

Lemma replace_escaped_escape (c : Ascii.ascii) (s : string) :
  c <> backslash -> replace_escaped c (escape c s) = s.
Proof.
  intros Hc. induction s as [|a rest IH]; [reflexivity|].
  cbn [escape]. destruct (Ascii.eqb_spec a c) as [->|Hac].
  - change (replace_escaped c (String backslash (String c (escape c rest))))
      with (if Ascii.eqb backslash backslash && Ascii.eqb c c
            then String c (replace_escaped c (escape c rest))
            else String backslash
                   (replace_escaped c (String c (escape c rest)))).
    rewrite !Ascii.eqb_refl. cbn [andb]. rewrite IH. reflexivity.
  - destruct rest as [|b rest']; [reflexivity|].
    assert (Hhead : exists b' tail,
               escape c (String b rest') = String b' tail
               /\ (Ascii.eqb a backslash && Ascii.eqb b' c = false)).
    { cbn [escape]. destruct (Ascii.eqb_spec b c) as [->|Hbc].
      - eexists _, _. split; [reflexivity|].
        destruct (Ascii.eqb_spec backslash c) as [Heq|_];
          [congruence|apply andb_false_r].
      - eexists _, _. split; [reflexivity|].
        destruct (Ascii.eqb_spec b c) as [Heq|_];
          [congruence|apply andb_false_r]. }
    destruct Hhead as (b' & tail & Hesc & Hno).
    rewrite Hesc in *.
    change (replace_escaped c (String a (String b' tail)))
      with (if Ascii.eqb a backslash && Ascii.eqb b' c
            then String c (replace_escaped c tail)
            else String a (replace_escaped c (String b' tail))).
    rewrite Hno, IH. reflexivity.
Qed.

(** X17: the two replacements undo the escaping of braces: for every text,
    writing a backslash before each closing brace and then before each
    opening brace gives a text that reaches the decoder as the original. *)
Theorem unescape_braces_escape (text : string) :
  unescape_braces (escape open_brace (escape close_brace text)) = text.
Proof.
  unfold unescape_braces.
  rewrite replace_escaped_escape by discriminate.
  apply replace_escaped_escape. discriminate.
Qed.

Lemma wait_for_shutdown_step (fuel : nat) (s : state E) :
  wait_for_shutdown (S fuel) s
  = if fst (rospy_is_shutdown (ext s))
    then Result (Ret true)
           (State (node s) (snd (rospy_is_shutdown (ext s)))) []
    else wait_for_shutdown fuel
           (State (node s)
              (rospy_sleep 0.1 (snd (rospy_is_shutdown (ext s))))).
Proof.
  cbn [wait_for_shutdown]. unfold bind, clock, sleep.
  cbn [res_out res_state res_trace node ext].
  destruct (fst (rospy_is_shutdown (ext s))); [reflexivity|].
  cbn [app]. destruct (wait_for_shutdown fuel _). reflexivity.
Qed.

Lemma wait_for_shutdown_spec (fuel : nat) (s : state E) :
  res_out (wait_for_shutdown fuel s) = Ret (negb (alive_for fuel (ext s)))
  /\ node (res_state (wait_for_shutdown fuel s)) = node s
  /\ res_trace (wait_for_shutdown fuel s) = [].
Proof.
  revert s. induction fuel as [|fuel IH]; intros s; [repeat split|].
  rewrite wait_for_shutdown_step. cbn [alive_for].
  destruct (fst (rospy_is_shutdown (ext s))); [repeat split|].
  apply (IH (State (node s)
               (rospy_sleep 0.1 (snd (rospy_is_shutdown (ext s)))))).
Qed.

(** X18: the main loop touches no attribute and makes no driver call while
    it polls; it is left exactly when one of the polls finds the node shut
    down, and then run(0.0) is the one driver call of [run]. *)
Theorem main_loop_footprint (fuel : nat) (s : state E) :
  let r := node_run fuel s in
  res_out r = Ret (negb (alive_for fuel (ext s)))
  /\ node (res_state r) = node s
  /\ res_trace r
     = (if alive_for fuel (ext s) then []
        else [EvAutostep (run (JNum 0))]).
Proof.
  cbv zeta. unfold node_run, bind.
  destruct (wait_for_shutdown_spec fuel s) as (Hout & Hnode & Htrace).
  rewrite Hout, Htrace. cbn [res_out].
  destruct (alive_for fuel (ext s)); cbn; rewrite Hnode; repeat split.
Qed.

Lemma wait_for_shutdown_returns (k fuel : nat) (s : state E) :
  alive_for k (ext s) = true ->
  fst (rospy_is_shutdown (after_polls k (ext s))) = true ->
  k < fuel ->
  wait_for_shutdown fuel s
  = Result (Ret true)
      (State (node s) (snd (rospy_is_shutdown (after_polls k (ext s))))) [].
Proof.
  revert fuel s. induction k as [|k IH]; intros fuel s Halive Hdown Hlt;
    (destruct fuel as [|fuel]; [lia|]); rewrite wait_for_shutdown_step.
  - cbn [after_polls] in *. rewrite Hdown. reflexivity.
  - cbn [alive_for] in Halive. apply andb_true_iff in Halive as [Hup Halive].
    apply negb_true_iff in Hup. cbn [after_polls] in *. rewrite Hup.
    apply (IH fuel (State (node s)
                      (rospy_sleep 0.1 (snd (rospy_is_shutdown (ext s))))));
      [exact Halive|exact Hdown|lia].
Qed.

(** X19: [run] returns once the node is shut down: if the first k polls find
    it alive and the next one finds it shut down, then with any larger number
    of polls allowed [run] returns, having slept k times, commanded velocity
    0.0 once, and changed no attribute. *)
Theorem main_loop_returns (k fuel : nat) (s : state E) :
  alive_for k (ext s) = true ->
  fst (rospy_is_shutdown (after_polls k (ext s))) = true ->
  k < fuel ->
  node_run fuel s
  = Result (Ret true)
      (State (node s)
         (autostep_do (run (JNum 0))
            (snd (rospy_is_shutdown (after_polls k (ext s))))))
      [EvAutostep (run (JNum 0))].
Proof.
  intros Halive Hdown Hlt. unfold node_run, bind.
  rewrite (wait_for_shutdown_returns k fuel s Halive Hdown Hlt).
  reflexivity.
Qed.

End ServiceProperties.

(** * Concrete runs *)

(** C1, as stated, fails: with running_motion_cmd already true a sinusoid
    request with all its arguments is answered with success, not with
    "motion already running", and a thread is started. *)
Lemma sinusoid_while_running_accepted :
  let r := command_srv_callback 1 "sinusoid" sinusoid_args
             (sim_state running_node) in
  running_motion_cmd (node (sim_state running_node)) = true
  /\ res_out r = Ret (response true "")
  /\ res_out r <> Ret (response false "motion already running")
  /\ length (threads_started (res_trace r)) = 1.
Proof.
  cbv zeta.
  rewrite (command_lookup _ _ on_sinusoid_command) by reflexivity.
  rewrite sinusoid_accepted by reflexivity.
  split; [reflexivity|]. split; [reflexivity|]. split; [|reflexivity].
  cbn [res_out]. apply ret_response_neq. left. discriminate.
Qed.

Lemma motion_start_ignores_running_motion_witness :
  missing_keys param_keys sinusoid_args = []
  /\ trajectory_args [0; 1; 2]%float !! "position"
     = Some (JArr (map JNum [0; 1; 2]%float))
  /\ scipy_array (JArr (map JNum [0; 1; 2]%float)) = Ret [0; 1; 2]%float
  /\ 2 <= length [0; 1; 2]%float
  /\ command_srv_callback 1 "sinusoid" sinusoid_args (sim_state running_node)
     = Result (Ret (response true ""))
         (set_running_motion_cmd true (sim_state running_node))
         [EvAcquire; EvWrite F_running_motion_cmd; EvRelease;
          EvThreadStart
            (Thread_sinusoid (collected param_keys sinusoid_args ∅)
               sinusoid_motion_data_callback sinusoid_motion_done_callback)]
  /\ command_srv_callback 1 "run_trajectory" (trajectory_args [0; 1; 2]%float)
       (sim_state running_node)
     = Result (Ret (response true ""))
         (set_running_motion_cmd true (sim_state running_node))
         [EvAcquire; EvWrite F_running_motion_cmd; EvRelease;
          EvThreadStart (trajectory_thread 1 [0; 1; 2]%float)].
Proof.
  assert (H1 : missing_keys param_keys sinusoid_args = []) by reflexivity.
  assert (H2 : trajectory_args [0; 1; 2]%float !! "position"
               = Some (JArr (map JNum [0; 1; 2]%float))) by reflexivity.
  assert (H3 : scipy_array (JArr (map JNum [0; 1; 2]%float))
               = Ret [0; 1; 2]%float) by reflexivity.
  assert (H4 : 2 <= length [0; 1; 2]%float) by (simpl; lia).
  split; [exact H1|]. split; [exact H2|]. split; [exact H3|].
  split; [exact H4|].
  exact (motion_start_ignores_running_motion 1 (sim_state running_node)
           sinusoid_args (trajectory_args [0; 1; 2]%float)
           (JArr (map JNum [0; 1; 2]%float)) [0; 1; 2]%float H1 H2 H3 H4).
Defined.

(** C4, as stated, fails for run_trajectory: the key the handler wants is
    "position", a request that carries "positions" is answered as one with a
    missing argument, and the text is not "positions argument missing". *)
Lemma run_trajectory_key_is_position :
  let s := sim_state init_node in
  res_out (command_srv_callback 1 "run_trajectory" ∅ s)
  = Ret (response false "position (array) argument missing")
  /\ res_out (command_srv_callback 1 "run_trajectory" ∅ s)
     <> Ret (response false "positions argument missing")
  /\ command_srv_callback 1 "run_trajectory"
       {[ "positions" := JArr (map JNum [0; 1; 2]%float) ]} s
     = Result (Ret (response false "position (array) argument missing")) s [].
Proof.
  cbv zeta.
  rewrite !(command_lookup _ _ (on_run_trajectory_command 1)) by reflexivity.
  split; [reflexivity|]. split; [|reflexivity].
  change (res_out (on_run_trajectory_command 1 ∅ (sim_state init_node)))
    with (@Ret (gmap string json)
            (response false "position (array) argument missing")).
  apply ret_response_neq. right. discriminate.
Qed.

Lemma missing_arguments_rejected_witness :
  missing_keys (required_keys "sinusoid") {[ "amplitude" := JNum 1 ]} <> []
  /\ command_srv_callback 1 "sinusoid" {[ "amplitude" := JNum 1 ]}
       (sim_state init_node)
     = Result
         (Ret (response false
                 (String.concat ", "
                    (map (missing_message "sinusoid")
                       (missing_keys (required_keys "sinusoid")
                          {[ "amplitude" := JNum 1 ]})))))
         (sim_state init_node) []
  /\ String.concat ", "
       (map (missing_message "sinusoid")
          (missing_keys (required_keys "sinusoid")
             {[ "amplitude" := JNum 1 ]}))
     = "period argument missing, phase argument missing, offset argument missing, num_cycle argument missing".
Proof.
  assert (Hmiss : missing_keys (required_keys "sinusoid")
                    {[ "amplitude" := JNum 1 ]} <> [])
    by (vm_compute; discriminate).
  split; [exact Hmiss|]. split; [|reflexivity].
  exact (missing_arguments_rejected 1 "sinusoid" {[ "amplitude" := JNum 1 ]}
           (sim_state init_node) Hmiss).
Defined.

(** C5, as stated, fails: the velocity interpolant of positions [0, 1, 2] at
    dt = 1.0 is 0.5 at t = 0.5, not 1.0. *)
Lemma velocity_at_half_is_not_one :
  exists position_func velocity_func,
    threads_started
      (res_trace (on_run_trajectory_command 1
                    (trajectory_args [0; 1; 2]%float) (sim_state init_node)))
    = [Thread_run_trajectory 2 position_func velocity_func false
         trajectory_motion_data_callback]
    /\ interp1d_call velocity_func 0.5 = Ret 0.5%float
    /\ interp1d_call velocity_func 0.5 <> Ret 1%float.
Proof.
  exists {| interp_x := [0; 1; 2]; interp_y := [0; 1; 2] |}%float,
         {| interp_x := [0; 1; 2]; interp_y := [0; 1; 1] |}%float.
  split; [vm_compute; reflexivity|]. split; [vm_compute; reflexivity|].
  intros Heq.
  apply (f_equal (fun o => match o with
                           | Ret x => (x =? 1)%float
                           | Raise _ => true
                           end)) in Heq.
  vm_compute in Heq. discriminate Heq.
Qed.

Lemma tracking_state_reachable : reachable 1 tracking_state.
Proof.
  apply (reachable_step 1 awaiting_state).
  - apply (reachable_step 1 (sim_state init_node)).
    + apply reachable_init.
    + exact (step_command 1 "enable_tracking_mode" ∅ (sim_state init_node)).
  - exact (step_tracking_data 1 {| msg_position := 0; msg_velocity := 0 |}
             awaiting_state).
Qed.

Lemma first_sample_initialises_witness :
  let r := on_tracking_data_callback
             {| msg_position := 0; msg_velocity := 0 |} awaiting_state in
  tracking_mode_enabled (node awaiting_state) = true
  /\ tracking_mode_is_first (node awaiting_state) = true
  /\ autostep_calls (res_trace r) = [get_position]
  /\ map setpoint (published (res_trace r)) = [2%float]
  /\ tracking_mode_position_start (node (res_state r)) = 2%float
  /\ tracking_mode_first_update_t (node (res_state r)) = 10%float.
Proof.
  cbv zeta.
  assert (Hen : tracking_mode_enabled (node awaiting_state) = true)
    by reflexivity.
  assert (Hfirst : tracking_mode_is_first (node awaiting_state) = true)
    by reflexivity.
  split; [exact Hen|]. split; [exact Hfirst|].
  destruct (first_sample_initialises
              {| msg_position := 0; msg_velocity := 0 |} awaiting_state
              Hen Hfirst) as (_ & Hcalls & Hpub & Hnode).
  split; [exact Hcalls|]. split; [rewrite Hpub; reflexivity|].
  rewrite Hnode. split; reflexivity.
Defined.

Lemma tracking_sample_control_law_witness :
  let r := on_tracking_data_callback
             {| msg_position := 1; msg_velocity := 0 |} tracking_state in
  reachable 1 tracking_state
  /\ tracking_mode_enabled (node tracking_state) = true
  /\ tracking_mode_is_first (node tracking_state) = false
  /\ autostep_calls (res_trace r) = [run_with_feedback 5]
  /\ tracking_mode_position (node (res_state r)) = 7%float
  /\ tracking_mode_velocity (node (res_state r)) = 5%float
  /\ map setpoint (published (res_trace r)) = [2%float].
Proof.
  cbv zeta.
  assert (Hen : tracking_mode_enabled (node tracking_state) = true)
    by reflexivity.
  assert (Hfirst : tracking_mode_is_first (node tracking_state) = false)
    by reflexivity.
  split; [exact tracking_state_reachable|].
  split; [exact Hen|]. split; [exact Hfirst|].
  destruct (tracking_sample_control_law 1
              {| msg_position := 1; msg_velocity := 0 |} tracking_state
              tracking_state_reachable Hen Hfirst)
    as (_ & Hcalls & Hnode & Hpub & _).
  split; [exact Hcalls|]. rewrite Hnode, Hpub. repeat split; reflexivity.
Defined.

(** C9, as stated, fails: the first sample of a session writes the scratch
    attributes after the lock has been released, enable writes enabled_flag
    without the lock, and disable_tracking_mode calls the driver while it
    holds the lock. *)
Lemma accesses_outside_the_lock :
  let sampled :=
    res_trace (on_tracking_data_callback
                 {| msg_position := 0; msg_velocity := 0 |} awaiting_state) in
  lock_protects sampled = false
  /\ fields_written (outside_lock false sampled)
     = [F_tracking_mode_is_first; F_tracking_mode_first_update_t;
        F_tracking_mode_last_update_t; F_tracking_mode_position_start;
        F_tracking_mode_position; F_tracking_mode_velocity]
  /\ lock_protects
       (res_trace (command_srv_callback 1 "enable" ∅ (sim_state init_node)))
     = false
  /\ no_locked_io
       (res_trace (command_srv_callback 1 "disable_tracking_mode" ∅
                     tracking_state))
     = false.
Proof. cbv zeta. repeat split; reflexivity. Qed.

(** ** Runs of the further properties *)

Lemma unknown_command_rejected_witness :
  ("fly" ∉ command_names)
  /\ command_srv_callback 1 "fly" sinusoid_args (sim_state init_node)
     = Result (Ret (response false "unknown command")) (sim_state init_node)
         [].
Proof.
  assert (Hnot : "fly" ∉ command_names)
    by (apply (bool_decide_unpack _); vm_compute; exact I).
  split; [exact Hnot|].
  exact (unknown_command_rejected 1 "fly" sinusoid_args (sim_state init_node)
           Hnot).
Defined.

Lemma response_well_formed_witness :
  res_out (command_srv_callback 1 "is_busy" ∅ (sim_state init_node))
  = Ret (<["is_busy" := JBool false]> (response true ""))
  /\ exists success message,
       (<["is_busy" := JBool false]> (response true "") : gmap string json)
         !! "success" = Some (JBool success)
       /\ (<["is_busy" := JBool false]> (response true "")
             : gmap string json) !! "message" = Some (JStr message)
       /\ (success = true <-> message = "").
Proof.
  assert (Hret : res_out (command_srv_callback 1 "is_busy" ∅
                            (sim_state init_node))
                 = Ret (<["is_busy" := JBool false]> (response true "")))
    by reflexivity.
  split; [exact Hret|].
  exact (response_well_formed 1 "is_busy" ∅ _ (sim_state init_node) Hret).
Defined.


Lemma refused_request_changes_nothing_witness :
  accepted (res_out (command_srv_callback 1 "run" ∅ (sim_state init_node)))
  = false
  /\ res_state (command_srv_callback 1 "run" ∅ (sim_state init_node))
     = sim_state init_node
  /\ res_trace (command_srv_callback 1 "run" ∅ (sim_state init_node)) = [].
Proof.
  assert (Hacc : accepted (res_out (command_srv_callback 1 "run" ∅
                                      (sim_state init_node))) = false)
    by reflexivity.
  split; [exact Hacc|].
  exact (refused_request_changes_nothing 1 "run" ∅ (sim_state init_node)
           Hacc).
Defined.

Lemma sinusoid_param_is_the_five_keys_witness :
  missing_keys param_keys (<["comment" := JStr "slow"]> sinusoid_args) = []
  /\ exists param,
       threads_started
         (res_trace (command_srv_callback 1 "sinusoid"
                       (<["comment" := JStr "slow"]> sinusoid_args)
                       (sim_state init_node)))
       = [Thread_sinusoid param sinusoid_motion_data_callback
            sinusoid_motion_done_callback]
       /\ forall k,
            param !! k
            = if bool_decide (k ∈ param_keys)
              then ((<["comment" := JStr "slow"]> sinusoid_args)
                      : gmap string json) !! k
              else None.
Proof.
  assert (Hmiss : missing_keys param_keys
                    (<["comment" := JStr "slow"]> sinusoid_args) = [])
    by reflexivity.
  split; [exact Hmiss|].
  exact (sinusoid_param_is_the_five_keys 1
           (<["comment" := JStr "slow"]> sinusoid_args) (sim_state init_node)
           Hmiss).
Defined.

Lemma sinusoid_round_trip_witness :
  missing_keys param_keys sinusoid_args = []
  /\ running_motion_cmd (node (sim_state init_node)) = false
  /\ exists t,
       threads_started
         (res_trace (command_srv_callback 1 "sinusoid" sinusoid_args
                       (sim_state init_node))) = [t]
       /\ res_out
            (thread_finish t
               (res_state (command_srv_callback 1 "sinusoid" sinusoid_args
                             (sim_state init_node)))) = Ret tt
       /\ res_state
            (thread_finish t
               (res_state (command_srv_callback 1 "sinusoid" sinusoid_args
                             (sim_state init_node))))
          = sim_state init_node.
Proof.
  assert (Hmiss : missing_keys param_keys sinusoid_args = []) by reflexivity.
  assert (Hrun : running_motion_cmd (node (sim_state init_node)) = false)
    by reflexivity.
  split; [exact Hmiss|]. split; [exact Hrun|].
  exact (sinusoid_round_trip 1 sinusoid_args (sim_state init_node)
           Hmiss Hrun).
Defined.


Lemma sample_dropped_when_disabled_witness :
  tracking_mode_enabled (node (sim_state init_node)) = false
  /\ on_tracking_data_callback {| msg_position := 1; msg_velocity := 2 |}
       (sim_state init_node)
     = Result (Ret tt) (sim_state init_node)
         [EvAcquire; EvRead F_tracking_mode_enabled; EvRelease;
          EvRead F_tracking_mode_enabled].
Proof.
  assert (Hoff : tracking_mode_enabled (node (sim_state init_node)) = false)
    by reflexivity.
  split; [exact Hoff|].
  exact (sample_dropped_when_disabled
           {| msg_position := 1; msg_velocity := 2 |} (sim_state init_node)
           Hoff).
Defined.

Lemma sinusoid_telemetry_has_no_sensor_witness :
  let r := motion_data_callback_sinusoid 0.5 1 2 7 (sim_state init_node) in
  reachable 1 (sim_state init_node)
  /\ res_out r = Ret tt
  /\ published (res_trace r)
     = [ {| header := new_header {| secs := 0; nsecs := 0 |};
            elapsed_time := 0.5; position := 1; setpoint := 2;
            sensor := 0 |} ]
  /\ autostep_calls (res_trace r) = []
  /\ node (res_state r) = init_node.
Proof.
  cbv zeta.
  assert (Hreach : reachable 1 (sim_state init_node))
    by apply reachable_init.
  split; [exact Hreach|].
  exact (sinusoid_telemetry_has_no_sensor 1 0.5 1 2 7 (sim_state init_node)
           Hreach).
Defined.

Lemma request_decoding_witness :
  "x" <> ""
  /\ sim_loads (unescape_braces "x") = Raise ValueError
  /\ command_srv_callback_req 1 sim_loads "fly" "" (sim_state init_node)
     = command_srv_callback 1 "fly" ∅ (sim_state init_node)
  /\ command_srv_callback_req 1 sim_loads "fly" "x" (sim_state init_node)
     = Result (Raise ValueError) (sim_state init_node) [].
Proof.
  assert (Hne : "x" <> "") by discriminate.
  assert (Hraise : sim_loads (unescape_braces "x") = Raise ValueError)
    by reflexivity.
  split; [exact Hne|]. split; [exact Hraise|].
  exact (request_decoding 1 sim_loads "fly" "x" ValueError
           (sim_state init_node) Hne Hraise).
Defined.

Lemma unescape_braces_plain_witness :
  has_escaped open_brace "{}" = false
  /\ has_escaped close_brace "{}" = false
  /\ unescape_braces "{}" = "{}".
Proof.
  assert (Hopen : has_escaped open_brace "{}" = false) by reflexivity.
  assert (Hclose : has_escaped close_brace "{}" = false) by reflexivity.
  split; [exact Hopen|]. split; [exact Hclose|].
  exact (unescape_braces_plain "{}" Hopen Hclose).
Defined.

Lemma main_loop_returns_witness :
  alive_for 3 (ext (sim_state init_node)) = true
  /\ fst (rospy_is_shutdown (after_polls 3 (ext (sim_state init_node))))
     = true
  /\ 3 < 5
  /\ res_out (node_run 5 (sim_state init_node)) = Ret true
  /\ res_trace (node_run 5 (sim_state init_node))
     = [EvAutostep (run (JNum 0))].
Proof.
  assert (Halive : alive_for 3 (ext (sim_state init_node)) = true)
    by reflexivity.
  assert (Hdown : fst (rospy_is_shutdown
                         (after_polls 3 (ext (sim_state init_node)))) = true)
    by reflexivity.
  assert (Hlt : 3 < 5) by lia.
  split; [exact Halive|]. split; [exact Hdown|]. split; [exact Hlt|].
  rewrite (main_loop_returns 3 5 (sim_state init_node) Halive Hdown Hlt).
  split; reflexivity.
Defined.
